(** * The dummy OAuth authorization server of [test-oauth-server/oauth_server.py]

    A shallow embedding of the request handlers of the test server
    ([parse_client_credentials], [register], [authorize], [token]) and the
    properties of its specification.

    Python [str] values are represented by [string], the sequence of the
    bytes of their UTF-8 encoding; a [str] with a lone surrogate, which has
    no UTF-8 encoding and which only a JSON body can bring in, is a value of
    its own ([PyLoneStr]).  The library calls the handlers make
    (Flask's request accessors, [base64], [urllib.parse]) are modelled in the
    modules [Py], [Urllib], [Base64] and [Flask] below.  Standard output
    encodes to UTF-8: a [print] raises on a text with a lone surrogate and on
    no other, so the [print] calls that show a value of a JSON body are part
    of the model ([print_value]) and the others, like the [logger] calls,
    are left out. *)

From Stdlib Require Import String Ascii List ZArith NArith QArith Bool Lia.
From Stdlib Require Import DecimalString.
Import ListNotations.
Open Scope string_scope.
Set Warnings "-register-all".

(** ** Python values, truthiness, exceptions *)

Module Py.

(** Values that reach the handlers: [None], and what [json] parsing yields.
    A [float] is represented by its rational value.  [PyStr s] is a [str]
    without surrogate code points, by its UTF-8 bytes: header, query and
    form values are such, and so are the literals of the source.
    [PyLoneStr cps] is a [str] that holds a lone surrogate (the JSON escape
    [\ud800] parses to one), by its code points; it is not empty and equals
    no [PyStr].  The keys of a dict are texts: the handlers look up
    literal keys only and show a dict through [json.dumps] or [repr], which
    escape, so a key with a lone surrogate acts as any other key that is
    not looked up. *)
Inductive pyval :=
| PyNone
| PyBool (b : bool)
| PyInt (n : Z)
| PyFloat (q : Q)
| PyStr (s : string)
| PyLoneStr (code_points : list N)
| PyList (l : list pyval)
| PyDict (d : list (string * pyval)).

(** An exception: its class and [str(e)]. *)
Record exn := Exn { exn_class : string; exn_str : string }.

(** The result of evaluating an expression that may raise. *)
Inductive outcome (A : Type) :=
| Returns (a : A)
| Raises (e : exn).
Arguments Returns {A} a.
Arguments Raises {A} e.

Definition bind {A B} (m : outcome A) (k : A -> outcome B) : outcome B :=
  match m with
  | Returns a => k a
  | Raises e => Raises e
  end.

(** [try: m  except Exception as e: h e] *)
Definition try_except {A} (m : outcome A) (h : exn -> A) : A :=
  match m with
  | Returns a => a
  | Raises e => h e
  end.

(** Truth value testing ([bool(v)]). *)
Definition truthy (v : pyval) : bool :=
  match v with
  | PyNone => false
  | PyBool b => b
  | PyInt n => negb (n =? 0)%Z
  | PyFloat q => negb (Qeq_bool q 0)
  | PyStr s => negb (s =? "")
  | PyLoneStr cps => match cps with [] => false | _ :: _ => true end
  | PyList l => match l with [] => false | _ :: _ => true end
  | PyDict d => match d with [] => false | _ :: _ => true end
  end.

(** [a or b] *)
Definition py_or (a b : pyval) : pyval := if truthy a then a else b.

(** [v == s] for a string literal [s]: only an equal [str] compares equal. *)
Definition eq_str (v : pyval) (s : string) : bool :=
  match v with
  | PyStr t => (t =? s)
  | _ => false
  end.

(** [v != s] *)
Definition ne_str (v : pyval) (s : string) : bool := negb (eq_str v s).

(** [Optional[str]] values, as the multi-dict accessors return them. *)
Definition of_opt (o : option string) : pyval :=
  match o with
  | Some s => PyStr s
  | None => PyNone
  end.

(** Truth value of an [Optional[str]]: [None] and [''] are false. *)
Definition truthy_opt (o : option string) : bool :=
  match o with
  | Some s => negb (s =? "")
  | None => false
  end.

(** [a or b] on [Optional[str]] operands. *)
Definition or_opt (a b : option string) : option string :=
  if truthy_opt a then a else b.

Definition type_name (v : pyval) : string :=
  match v with
  | PyNone => "NoneType"
  | PyBool _ => "bool"
  | PyInt _ => "int"
  | PyFloat _ => "float"
  | PyStr _ => "str"
  | PyLoneStr _ => "str"
  | PyList _ => "list"
  | PyDict _ => "dict"
  end.

(** [d.get(k)] on a [dict]: the value bound to [k], else [None]. *)
Fixpoint dict_get (d : list (string * pyval)) (k : string) : pyval :=
  match d with
  | [] => PyNone
  | (k', v) :: d' => if k' =? k then v else dict_get d' k
  end.

(** [v.get(k)] on an arbitrary value: only a [dict] has the method. *)
Definition get (v : pyval) (k : string) : outcome pyval :=
  match v with
  | PyDict d => Returns (dict_get d k)
  | _ => Raises (Exn "AttributeError"
                   ("'" ++ type_name v ++ "' object has no attribute 'get'"))
  end.

(** The surrogate code points, U+D800 to U+DFFF. *)
Definition is_surrogate (c : N) : bool := ((55296 <=? c) && (c <=? 57343))%N.

(** The number of surrogates that [cps] starts with. *)
Fixpoint run_length (cps : list N) : N :=
  match cps with
  | c :: r => if is_surrogate c then (1 + run_length r)%N else 0%N
  | [] => 0%N
  end.

(** The first run of surrogates of a text whose first code point has
    position [pos]: where it starts, its first code point, its length. *)
Fixpoint first_surrogate (cps : list N) (pos : N) : option (N * N * N) :=
  match cps with
  | [] => None
  | c :: r =>
      if is_surrogate c then Some (pos, c, (1 + run_length r)%N)
      else first_surrogate r (pos + 1)%N
  end.

Definition decimal (n : N) : string := NilZero.string_of_uint (N.to_uint n).

Definition hex_digit_lower (n : N) : ascii :=
  ascii_of_N (if (n <? 10)%N then 48 + n else 87 + n)%N.

(** [%04x] *)
Definition hex4 (c : N) : string :=
  String (hex_digit_lower ((c / 4096) mod 16))
    (String (hex_digit_lower ((c / 256) mod 16))
       (String (hex_digit_lower ((c / 16) mod 16))
          (String (hex_digit_lower (c mod 16)) EmptyString))).

(** The exception of the UTF-8 encoder of [sys.stdout] on a run of [len]
    surrogates at position [start]. *)
Definition unicode_encode_error (start c len : N) : exn :=
  Exn "UnicodeEncodeError"
    (if (len =? 1)%N then
       "'utf-8' codec can't encode character '\u" ++ hex4 c ++ "' in position "
       ++ decimal start ++ ": surrogates not allowed"
     else
       "'utf-8' codec can't encode characters in position "
       ++ decimal start ++ "-" ++ decimal (start + len - 1) ++ ": surrogates not allowed").

(** [print(f"{prefix}{v}")] for an ASCII [prefix], on a standard output
    that encodes to UTF-8: the text of a [str] is the [str] itself, and a
    surrogate in it cannot be encoded; the text of every other value
    ([None], numbers, lists and dicts, whose strings are shown escaped) can. *)
Definition print_value (prefix : string) (v : pyval) : outcome unit :=
  match v with
  | PyLoneStr cps =>
      match first_surrogate cps (N.of_nat (String.length prefix)) with
      | Some (start, c, len) => Raises (unicode_encode_error start c len)
      | None => Returns tt
      end
  | _ => Returns tt
  end.

(** The values whose text standard output can encode. *)
Definition printable (v : pyval) : bool :=
  match v with
  | PyLoneStr cps => negb (existsb is_surrogate cps)
  | _ => true
  end.

(** [s.startswith(p)] *)
Definition startswith (s p : string) : bool := String.prefix p s.

(** [p in s] on strings: [p] occurs in [s] as a substring. *)
Fixpoint str_in (p s : string) : bool :=
  String.prefix p s ||
  match s with
  | EmptyString => false
  | String _ s' => str_in p s'
  end.

(** [s[n:]] *)
Fixpoint slice_from (n : nat) (s : string) : string :=
  match n, s with
  | O, _ => s
  | S n', String _ s' => slice_from n' s'
  | S _, EmptyString => EmptyString
  end.

(** [s.split(':', 1)]: one element when [s] has no colon, else the text
    before the first colon and the text after it. *)
Fixpoint split_colon_1 (s : string) : list string :=
  match s with
  | EmptyString => [EmptyString]
  | String c s' =>
      if Ascii.eqb c ":"%char then [EmptyString; s']
      else match split_colon_1 s' with
           | a :: rest => String c a :: rest
           | [] => [String c EmptyString]
           end
  end.

(** [':' not in s] *)
Fixpoint no_colon (s : string) : bool :=
  match s with
  | EmptyString => true
  | String c s' => negb (Ascii.eqb c ":"%char) && no_colon s'
  end.

(** [a, b = l]: unpacking into exactly two targets. *)
Definition unpack2 (l : list string) : outcome (string * string) :=
  match l with
  | [a; b] => Returns (a, b)
  | _ => Raises (Exn "ValueError" "not enough values to unpack (expected 2, got 1)")
  end.

(** [s.endswith('/')] *)
Fixpoint endswith_slash (s : string) : bool :=
  match s with
  | EmptyString => false
  | String c EmptyString => Ascii.eqb c "/"%char
  | String _ s' => endswith_slash s'
  end.

(** [s.rstrip('/')]: [s] without its trailing slashes. *)
Fixpoint rstrip_slash (s : string) : string :=
  match s with
  | EmptyString => EmptyString
  | String c s' =>
      match rstrip_slash s' with
      | EmptyString => if Ascii.eqb c "/"%char then EmptyString else String c EmptyString
      | r => String c r
      end
  end.

(** ['/' * n] *)
Fixpoint slashes (n : nat) : string :=
  match n with
  | O => EmptyString
  | S n' => String "/"%char (slashes n')
  end.

(** [c.lower()] on a byte: the letters [A]-[Z] become [a]-[z]. *)
Definition lower_ascii (c : ascii) : ascii :=
  let n := N_of_ascii c in
  if ((65 <=? n) && (n <=? 90))%N then ascii_of_N (n + 32) else c.

(** [s.lower()] for the ASCII letters of [s]; header names are ASCII. *)
Fixpoint lower (s : string) : string :=
  match s with
  | EmptyString => EmptyString
  | String c s' => String (lower_ascii c) (lower s')
  end.

End Py.

Export Py.

Notation "x <- m ;; k" := (Py.bind m (fun x => k))
  (at level 61, m at next level, right associativity).
Notation "' p <- m ;; k" := (Py.bind m (fun x => let 'p := x in k))
  (at level 61, p pattern, m at next level, right associativity).

(** ** [urllib.parse]: query-string encoding *)

Module Urllib.

(** The characters [quote] never escapes: letters, digits and [_.-~]. *)
Definition always_safe (c : ascii) : bool :=
  let n := N_of_ascii c in
  ((65 <=? n) && (n <=? 90) || (97 <=? n) && (n <=? 122) ||
   (48 <=? n) && (n <=? 57) ||
   (n =? 95) || (n =? 46) || (n =? 45) || (n =? 126))%N.

Definition hex_digit (n : N) : ascii :=
  ascii_of_N (if (n <? 10)%N then 48 + n else 55 + n)%N.

(** [%XX], with upper-case hexadecimal digits. *)
Definition percent (c : ascii) : string :=
  let n := N_of_ascii c in
  String "%"%char (String (hex_digit (n / 16)) (String (hex_digit (n mod 16)) EmptyString)).

(** [quote_plus(s)] with its default [safe='']: a space becomes [+], every
    other byte outside [always_safe] is percent-escaped. *)
Fixpoint quote_plus (s : string) : string :=
  match s with
  | EmptyString => EmptyString
  | String c s' =>
      if always_safe c then String c (quote_plus s')
      else if Ascii.eqb c " "%char then String "+"%char (quote_plus s')
      else percent c ++ quote_plus s'
  end.

(** Every byte of [s] is in [always_safe]. *)
Fixpoint all_safe (s : string) : bool :=
  match s with
  | EmptyString => true
  | String c s' => always_safe c && all_safe s'
  end.

(** ['&'.join(l)] *)
Fixpoint join_amp (l : list string) : string :=
  match l with
  | [] => EmptyString
  | [x] => x
  | x :: l' => x ++ "&" ++ join_amp l'
  end.

(** [urlencode(params)] for a [dict] of [str] keys and values, in insertion
    order. *)
Definition urlencode (params : list (string * string)) : string :=
  join_amp (map (fun kv => quote_plus (fst kv) ++ "=" ++ quote_plus (snd kv)) params).

(** The bytes a [quote_plus] result is made of: the safe ones, [+] and [%]. *)
Definition escaped_byte (c : ascii) : bool :=
  always_safe c || Ascii.eqb c "+"%char || Ascii.eqb c "%"%char.

Fixpoint all_escaped (s : string) : bool :=
  match s with
  | EmptyString => true
  | String c s' => escaped_byte c && all_escaped s'
  end.

(** The value of a hexadecimal digit. *)
Definition hex_value (c : ascii) : N :=
  let n := N_of_ascii c in
  (if n <? 58 then n - 48 else n - 55)%N.

(** [c in s] for a byte [c]. *)
Fixpoint occurs (c : ascii) (s : string) : bool :=
  match s with
  | EmptyString => false
  | String c' s' => Ascii.eqb c' c || occurs c s'
  end.

(** The inverse of [quote_plus] on its results: [+] is a space, [%XX] the
    byte [XX], every other byte itself. *)
Fixpoint unquote_plus (s : string) : string :=
  match s with
  | EmptyString => EmptyString
  | String c s' =>
      if Ascii.eqb c "+"%char then String " "%char (unquote_plus s')
      else if Ascii.eqb c "%"%char then
        match s' with
        | String h1 (String h2 s'') =>
            String (ascii_of_N (16 * hex_value h1 + hex_value h2)) (unquote_plus s'')
        | _ => s
        end
      else String c (unquote_plus s')
  end.

End Urllib.

(** ** [base64]: a reference decoder

    The handlers take the decoder as a parameter (see [Server]); this module
    gives an executable instance of it, used in the examples.  It follows
    [binascii.a2b_base64] in its default, lenient mode. *)

Module Base64.

Definition b64_value (c : ascii) : option N :=
  let n := N_of_ascii c in
  (if (65 <=? n) && (n <=? 90) then Some (n - 65)
   else if (97 <=? n) && (n <=? 122) then Some (n - 71)
   else if (48 <=? n) && (n <=? 57) then Some (n + 4)
   else if n =? 43 then Some 62
   else if n =? 47 then Some 63
   else None)%N.

(** The decoder's state: position in the current quad, pending bits, count
    of padding characters seen in a row, and the output, last byte first. *)
Record b64_state := B64 {
  quad_pos : N;
  leftchar : N;
  pads : N;
  out_rev : list N
}.

(** The scan of the input; [Some bytes] when the padding ends the data or
    the input ends on a quad boundary, [None] for incorrect padding. *)
Fixpoint a2b_loop (s : string) (st : b64_state) : option (list N) :=
  match s with
  | EmptyString =>
      if (quad_pos st =? 0)%N then Some (rev (out_rev st)) else None
  | String c s' =>
      if Ascii.eqb c "="%char then
        if ((2 <=? quad_pos st) && (4 <=? quad_pos st + (pads st + 1)))%N
        then Some (rev (out_rev st))
        else a2b_loop s'
               (B64 (quad_pos st) (leftchar st)
                    (if (2 <=? quad_pos st)%N then pads st + 1 else pads st)%N
                    (out_rev st))
      else
        match b64_value c with
        | None => a2b_loop s' st
        | Some v =>
            a2b_loop s'
              (match quad_pos st with
               | 0 => B64 1 v 0 (out_rev st)
               | 1 => B64 2 (N.land v 15) 0
                          ((leftchar st * 4 + v / 16) :: out_rev st)
               | 2 => B64 3 (N.land v 3) 0
                          ((leftchar st * 16 + v / 4) :: out_rev st)
               | _ => B64 0 0 0 ((leftchar st * 64 + v) :: out_rev st)
               end)%N
        end
  end.

Fixpoint all_ascii (s : string) : bool :=
  match s with
  | EmptyString => true
  | String c s' => (N_of_ascii c <? 128)%N && all_ascii s'
  end.

Definition cont (b : N) : bool := ((128 <=? b) && (b <=? 191))%N.
Definition between (lo b hi : N) : bool := ((lo <=? b) && (b <=? hi))%N.

(** Well-formed UTF-8: shortest forms only, no surrogates, at most U+10FFFF. *)
Fixpoint utf8_valid (l : list N) : bool :=
  match l with
  | [] => true
  | b :: r =>
      if (b <? 128)%N then utf8_valid r
      else if between 194 b 223 then
        match r with
        | c1 :: r1 => cont c1 && utf8_valid r1
        | _ => false
        end
      else if between 224 b 239 then
        match r with
        | c1 :: c2 :: r2 =>
            (if (b =? 224)%N then between 160 c1 191
             else if (b =? 237)%N then between 128 c1 159
             else cont c1) && cont c2 && utf8_valid r2
        | _ => false
        end
      else if between 240 b 244 then
        match r with
        | c1 :: c2 :: c3 :: r3 =>
            (if (b =? 240)%N then between 144 c1 191
             else if (b =? 244)%N then between 128 c1 143
             else cont c1) && cont c2 && cont c3 && utf8_valid r3
        | _ => false
        end
      else false
  end.

Definition string_of_bytes (l : list N) : string :=
  fold_right (fun b s => String (ascii_of_N b) s) EmptyString l.

(** [base64.b64decode(s).decode('utf-8')] for a [str] argument. *)
Definition b64decode_utf8 (s : string) : outcome string :=
  if negb (all_ascii s) then
    Raises (Exn "ValueError"
              "string argument should contain only ASCII characters")
  else
    match a2b_loop s (B64 0 0 0 []) with
    | None => Raises (Exn "binascii.Error" "Incorrect padding")
    | Some bytes =>
        if utf8_valid bytes then Returns (string_of_bytes bytes)
        else Raises (Exn "UnicodeDecodeError" "'utf-8' codec can't decode bytes")
    end.

End Base64.

(** ** Flask: the request as the handlers read it, and responses *)

Module Flask.

(** A [MultiDict] ([request.args], [request.form]): the pairs in order. *)
Definition MultiDict := list (string * string).

(** [d.get(k)]: the first value of [k], else [None]. *)
Fixpoint multidict_get (d : MultiDict) (k : string) : option string :=
  match d with
  | [] => None
  | (k', v) :: d' => if k' =? k then Some v else multidict_get d' k
  end.

(** [d.get(k, default)] *)
Definition multidict_get_default (d : MultiDict) (k default : string) : option string :=
  match multidict_get d k with
  | Some v => Some v
  | None => Some default
  end.

(** [dict(d)]: every key with its first value ([MultiDict.__getitem__]
    gives the first value of a key).  A [PyDict] is read by
    [dict_get], which takes the first binding of a key, so the later pairs of
    a repeated key are kept in the list without effect. *)
Definition dict_of_multidict (d : MultiDict) : pyval :=
  PyDict (map (fun kv => (fst kv, PyStr (snd kv))) d).

(** What a handler reads from [flask.request].  [get_json] is the outcome of
    the call [request.get_json()]: the parsed body, [None], or the exception
    the call raises (a body that is declared as JSON and does not parse
    raises [BadRequest]). *)
Record Request := {
  headers_Authorization : option string; (* request.headers.get('Authorization') *)
  headers_Content_Type : option string;  (* request.headers.get('Content-Type') *)
  args : MultiDict;                      (* request.args *)
  form : MultiDict;                      (* request.form *)
  is_json : bool;                        (* request.is_json *)
  get_json : outcome pyval               (* request.get_json() *)
}.

(** [headers.get(name, default)] *)
Definition get_default (h : option string) (default : string) : string :=
  match h with
  | Some v => v
  | None => default
  end.

Inductive Response :=
| JsonResponse (status : Z) (body : pyval)
| RedirectResponse (status : Z) (location : string).

(** [jsonify(body)] *)
Definition jsonify (body : pyval) : Response := JsonResponse 200 body.

(** [return response, code] *)
Definition with_status (r : Response) (code : Z) : Response :=
  match r with
  | JsonResponse _ b => JsonResponse code b
  | RedirectResponse _ l => RedirectResponse code l
  end.

(** [redirect(location)] *)
Definition redirect (location : string) : Response := RedirectResponse 302 location.

Definition status_of (r : Response) : Z :=
  match r with
  | JsonResponse s _ => s
  | RedirectResponse s _ => s
  end.

(** [response.headers]: the header lines in order. *)
Definition Headers := list (string * string).

(** Header names compare without regard to letter case. *)
Definition same_header (k k' : string) : bool := (lower k =? lower k').

(** [headers.get(key)]: the value of the first line named [key]. *)
Fixpoint headers_get (h : Headers) (key : string) : option string :=
  match h with
  | [] => None
  | (k, v) :: h' => if same_header k key then Some v else headers_get h' key
  end.

(** [headers[key] = value] ([Headers.set]): the first line named [key] is
    replaced and the later ones are removed; without such a line the new
    one is appended. *)
Fixpoint headers_set (h : Headers) (key value : string) : Headers :=
  match h with
  | [] => [(key, value)]
  | (k, v) :: h' =>
      if same_header k key
      then (key, value) :: filter (fun kv => negb (same_header (fst kv) key)) h'
      else (k, v) :: headers_set h' key value
  end.

(** The lines named [key]. *)
Definition lines_named (key : string) (h : Headers) : Headers :=
  filter (fun kv => same_header (fst kv) key) h.

(** The member [k] of a JSON response body. *)
Definition body_get (r : Response) (k : string) : pyval :=
  match r with
  | JsonResponse _ (PyDict d) => dict_get d k
  | _ => PyNone
  end.

End Flask.

Export Flask.

(** ** The server *)

Definition DUMMY_CLIENT_ID : string := "dummy_client_12345".
Definition DUMMY_CLIENT_SECRET : string := "dummy_secret_abcdef123456".

(** f-string formatting of an [Optional[str]]. *)
Definition format_opt (o : option string) : string :=
  match o with
  | Some s => s
  | None => "None"
  end.

Section Server.

(** [base64.b64decode(s).decode('utf-8')]: the decoded text, or the exception
    raised by the decoding or by the UTF-8 conversion. *)
Variable b64decode_utf8 : string -> outcome string.

(** The [try] block of [parse_client_credentials] (lines 43-45). *)
Definition basic_credentials (auth_header : string) : outcome (string * string) :=
  let encoded_credentials := slice_from 6 auth_header in
  decoded_credentials <- b64decode_utf8 encoded_credentials ;;
  unpack2 (split_colon_1 decoded_credentials).

(** The pair after the header has been tried (lines 37-47); a failure of
    the [try] block is logged and leaves both [None]. *)
Definition header_credentials (auth_header : option string) : pyval * pyval :=
  match auth_header with
  | Some h =>
      if negb (h =? "") && startswith h "Basic " then
        try_except
          ('(client_id, client_secret) <- basic_credentials h ;;
           Returns (PyStr client_id, PyStr client_secret))
          (fun _ => (PyNone, PyNone))
      else (PyNone, PyNone)
  | None => (PyNone, PyNone)
  end.

Definition parse_client_credentials (auth_header : option string) (request : Request)
  : outcome (pyval * pyval) :=
  let '(client_id, client_secret) := header_credentials auth_header in
  if negb (truthy client_id) then
    let content_type := get_default (headers_Content_Type request) "" in
    if str_in "application/x-www-form-urlencoded" content_type then
      Returns (of_opt (multidict_get (form request) "client_id"),
               of_opt (multidict_get (form request) "client_secret"))
    else if str_in "application/json" content_type then
      json_data <- (if is_json request then get_json request else Returns PyNone) ;;
      if truthy json_data then
        client_id' <- get json_data "client_id" ;;
        client_secret' <- get json_data "client_secret" ;;
        Returns (client_id', client_secret')
      else Returns (client_id, client_secret)
    else Returns (client_id, client_secret)
  else Returns (client_id, client_secret).

(** *** [/register] *)

Definition dummy_config (now : Z) : pyval :=
  PyDict [
    ("client_id", PyStr DUMMY_CLIENT_ID);
    ("client_secret", PyStr DUMMY_CLIENT_SECRET);
    ("client_id_issued_at", PyInt now);
    ("client_secret_expires_at", PyInt 0);
    ("redirect_uris", PyList [PyStr "http://localhost:3000/callback";
                              PyStr "http://localhost:8080/callback"]);
    ("token_endpoint_auth_method", PyStr "client_secret_basic");
    ("grant_types", PyList [PyStr "authorization_code"]);
    ("response_types", PyList [PyStr "code"]);
    ("client_name", PyStr "Dummy OAuth Client");
    ("client_uri", PyStr "http://localhost:3000");
    ("scope", PyStr "read write admin")
  ].

(** [now] is [int(datetime.utcnow().timestamp())]. *)
Definition register (now : Z) (request : Request) : Response :=
  try_except
    (body <- get_json request ;;
     let data := py_or body (PyDict []) in
     Returns (jsonify (dummy_config now)))
    (fun e => with_status
                (jsonify (PyDict [("error", PyStr "invalid_request");
                                  ("error_description", PyStr (exn_str e))]))
                400).

(** *** [/authorize] *)

(** [request.args.get(k) or request.form.get(k)] *)
Definition param (request : Request) (k : string) : option string :=
  or_opt (multidict_get (args request) k) (multidict_get (form request) k).

(** [request.args.get(k) or request.form.get(k, default)] *)
Definition param_default (request : Request) (k default : string) : option string :=
  or_opt (multidict_get (args request) k)
         (multidict_get_default (form request) k default).

Definition authorize (request : Request) : Response :=
  try_except
    (let client_id := param request "client_id" in
     let redirect_uri := param request "redirect_uri" in
     let response_type := param_default request "response_type" "code" in
     let scope := param_default request "scope" "read" in
     let state := param request "state" in
     let code_challenge := param request "code_challenge" in
     let code_challenge_method := param request "code_challenge_method" in
     if negb (truthy_opt client_id) || negb (truthy_opt redirect_uri) then
       Returns (with_status
                  (jsonify (PyDict [("error", PyStr "invalid_request");
                                    ("error_description", PyStr "Missing required parameters")]))
                  400)
     else if ne_str (of_opt response_type) "code" then
       Returns (with_status (jsonify (PyDict [("error", PyStr "unsupported_response_type")])) 400)
     else
       let auth_code := "dummy_auth_code_12345" in
       let params :=
         ("code", auth_code) ::
         (if truthy_opt state then [("state", format_opt state)] else []) in
       let redirect_url := format_opt redirect_uri ++ "?" ++ Urllib.urlencode params in
       Returns (redirect redirect_url))
    (fun e => with_status
                (jsonify (PyDict [("error", PyStr "server_error");
                                  ("error_description", PyStr (exn_str e))]))
                500).

(** *** [/token] *)

Definition token_response : pyval :=
  PyDict [
    ("access_token", PyStr "dummy_access_token_12345");
    ("token_type", PyStr "Bearer");
    ("expires_in", PyInt 3600);
    ("refresh_token", PyStr "dummy_refresh_token_12345");
    ("scope", PyStr "read write")
  ].

(** The request data by content type (lines 189-204); [None] stands for
    the unsupported content type, on which the handler returns. *)
Definition token_request_data (request : Request) : option pyval :=
  let content_type := get_default (headers_Content_Type request) "" in
  if str_in "application/x-www-form-urlencoded" content_type then
    Some (dict_of_multidict (form request))
  else if str_in "application/json" content_type then
    Some (try_except
            (body <- get_json request ;; Returns (py_or body (PyDict [])))
            (fun _ => PyDict []))
  else None.

(** The [print] calls of the [try] block that show a value of the body
    are part of the handler: the one of line 185 and those of lines 209-231.
    The others show constants, header values and [json.dumps] texts, which
    standard output always encodes; [logger] calls do not raise. *)
Definition token (request : Request) : Response :=
  try_except
    (let auth_header := headers_Authorization request in
     '(client_id, client_secret) <- parse_client_credentials auth_header request ;;
     if ne_str client_id DUMMY_CLIENT_ID || ne_str client_secret DUMMY_CLIENT_SECRET then
       _ <- print_value "[TOKEN] Invalid client credentials: " client_id ;;
       Returns (with_status (jsonify (PyDict [("error", PyStr "invalid client credentials")])) 401)
     else
       match token_request_data request with
       | None =>
           Returns (with_status
                      (jsonify (PyDict [("error", PyStr "invalid_request");
                                        ("error_description", PyStr "Unsupported content type")]))
                      400)
       | Some request_data =>
           _ <- print_value "[TOKEN] Parsed client_id: " client_id ;;
           _ <- print_value "[TOKEN] Parsed client_secret: " client_secret ;;
           grant_type <- get request_data "grant_type" ;;
           if ne_str grant_type "authorization_code" then
             _ <- print_value "[TOKEN] Unsupported grant type: " grant_type ;;
             Returns (with_status (jsonify (PyDict [("error", PyStr "unsupported_grant_type")])) 400)
           else
             code <- get request_data "code" ;;
             redirect_uri <- get request_data "redirect_uri" ;;
             code_verifier <- get request_data "code_verifier" ;;
             _ <- print_value "[TOKEN] code: " code ;;
             _ <- print_value "[TOKEN] redirect_uri: " redirect_uri ;;
             _ <- print_value "[TOKEN] code_verifier: " code_verifier ;;
             _ <- print_value "[TOKEN] Accepting authorization code: " code ;;
             Returns (jsonify token_response)
       end)
    (fun e => with_status
                (jsonify (PyDict [("error", PyStr "server_error");
                                  ("error_description", PyStr (exn_str e))]))
                500).

(** *** [/.well-known/oauth-authorization-server] *)

(** [host_url] is [request.host_url]. *)
Definition well_known_oauth (host_url : string) : Response :=
  let base_url := rstrip_slash host_url in
  let metadata :=
    PyDict [
      ("issuer", PyStr base_url);
      ("authorization_endpoint", PyStr (base_url ++ "/authorize"));
      ("token_endpoint", PyStr (base_url ++ "/token"));
      ("registration_endpoint", PyStr (base_url ++ "/register"));
      ("response_types_supported", PyList [PyStr "code"]);
      ("grant_types_supported", PyList [PyStr "authorization_code"]);
      ("token_endpoint_auth_methods_supported", PyList [PyStr "client_secret_basic"]);
      ("scopes_supported", PyList [PyStr "read"; PyStr "write"; PyStr "admin"]);
      ("code_challenge_methods_supported", PyList [PyStr "S256"; PyStr "plain"])
    ] in
  jsonify metadata.

(** *** CORS configuration *)

(** [after_request] on the header lines of the response; the response is
    returned with its status and body as they are. *)
Definition after_request (headers : Headers) : Headers :=
  let headers := headers_set headers "Access-Control-Allow-Origin" "*" in
  let headers := headers_set headers "Access-Control-Allow-Headers"
                             "Content-Type,Authorization,Accept" in
  let headers := headers_set headers "Access-Control-Allow-Methods" "GET,POST,OPTIONS" in
  let headers := headers_set headers "Access-Control-Allow-Credentials" "true" in
  headers.

(** The names [after_request] sets. *)
Definition cors_names : list string :=
  ["Access-Control-Allow-Origin"; "Access-Control-Allow-Headers";
   "Access-Control-Allow-Methods"; "Access-Control-Allow-Credentials"].

Definition is_cors_name (k : string) : bool :=
  existsb (fun name => same_header k name) cors_names.

(** *** Named responses *)

Definition invalid_credentials_response : Response :=
  JsonResponse 401 (PyDict [("error", PyStr "invalid client credentials")]).

Definition unsupported_content_type_response : Response :=
  JsonResponse 400 (PyDict [("error", PyStr "invalid_request");
                            ("error_description", PyStr "Unsupported content type")]).

Definition unsupported_grant_type_response : Response :=
  JsonResponse 400 (PyDict [("error", PyStr "unsupported_grant_type")]).

Definition server_error_response (e : exn) : Response :=
  JsonResponse 500 (PyDict [("error", PyStr "server_error");
                            ("error_description", PyStr (exn_str e))]).

(** The exception of [v.get] on a value without that method. *)
Definition no_get_attribute (v : pyval) : exn :=
  Exn "AttributeError" ("'" ++ type_name v ++ "' object has no attribute 'get'").


(** The response [r] after the print [m], or the 500 of the exception that
    the print raises. *)
Definition after_print (m : outcome unit) (r : Response) : Response :=
  match m with
  | Returns _ => r
  | Raises e => server_error_response e
  end.

(** The prints of the authorization code flow (lines 226-231). *)
Definition print_code_flow (code redirect_uri code_verifier : pyval) : outcome unit :=
  _ <- print_value "[TOKEN] code: " code ;;
  _ <- print_value "[TOKEN] redirect_uri: " redirect_uri ;;
  _ <- print_value "[TOKEN] code_verifier: " code_verifier ;;
  print_value "[TOKEN] Accepting authorization code: " code.

Definition missing_parameters_response : Response :=
  JsonResponse 400 (PyDict [("error", PyStr "invalid_request");
                            ("error_description", PyStr "Missing required parameters")]).

Definition unsupported_response_type_response : Response :=
  JsonResponse 400 (PyDict [("error", PyStr "unsupported_response_type")]).

(** The request with another body: form fields, JSON flag and JSON outcome. *)
Definition with_body (request : Request) (f : MultiDict) (j : bool) (g : outcome pyval)
  : Request :=
  {| headers_Authorization := headers_Authorization request;
     headers_Content_Type := headers_Content_Type request;
     args := args request;
     form := f;
     is_json := j;
     get_json := g |}.

(** The request with another [Authorization] header, or without one. *)
Definition with_authorization (request : Request) (a : option string) : Request :=
  {| headers_Authorization := a;
     headers_Content_Type := headers_Content_Type request;
     args := args request;
     form := form request;
     is_json := is_json request;
     get_json := get_json request |}.

(** *** Sample requests *)

(** [Basic] with the base64 text of [dummy_client_12345:dummy_secret_abcdef123456]. *)
Definition basic_dummy : string :=
  "Basic ZHVtbXlfY2xpZW50XzEyMzQ1OmR1bW15X3NlY3JldF9hYmNkZWYxMjM0NTY=".


Definition unsupported_media_type : exn :=
  Exn "UnsupportedMediaType" "415 Unsupported Media Type".

Definition bad_request : exn :=
  Exn "BadRequest" "400 Bad Request: Failed to decode JSON object".

(** [POST /token], form body
    [grant_type=authorization_code&code=anything&redirect_uri=http://x]. *)
Definition form_token_request : Request :=
  {| headers_Authorization := Some basic_dummy;
     headers_Content_Type := Some "application/x-www-form-urlencoded";
     args := [];
     form := [("grant_type", "authorization_code"); ("code", "anything");
              ("redirect_uri", "http://x")];
     is_json := false;
     get_json := Raises unsupported_media_type |}.

(** [POST /token], form body [grant_type=refresh_token]. *)
Definition refresh_token_request : Request :=
  with_body form_token_request [("grant_type", "refresh_token")] false
            (Raises unsupported_media_type).

(** [POST /token], [Content-Type: application/json], body [[1]]. *)
Definition json_list_token_request : Request :=
  {| headers_Authorization := Some basic_dummy;
     headers_Content_Type := Some "application/json";
     args := [];
     form := [];
     is_json := true;
     get_json := Returns (PyList [PyInt 1]) |}.

(** A [POST] without [Authorization] header, [Content-Type:
    application/json], and a body that is not JSON. *)
Definition unparseable_json_request : Request :=
  {| headers_Authorization := None;
     headers_Content_Type := Some "application/json";
     args := [];
     form := [];
     is_json := true;
     get_json := Raises bad_request |}.

(** [POST /token], [Content-Type: text/plain], with the given header. *)
Definition plain_text_request (a : option string) : Request :=
  {| headers_Authorization := a;
     headers_Content_Type := Some "text/plain";
     args := [];
     form := [];
     is_json := false;
     get_json := Raises unsupported_media_type |}.

(** [GET /authorize?client_id=X&redirect_uri=http://localhost:3000/callback]
    with [state] as given. *)
Definition authorize_request (state : list (string * string)) : Request :=
  {| headers_Authorization := None;
     headers_Content_Type := None;
     args := ("client_id", "X") ::
             ("redirect_uri", "http://localhost:3000/callback") :: state;
     form := [];
     is_json := false;
     get_json := Raises unsupported_media_type |}.

(** [GET /authorize?client_id=X]: no [redirect_uri]. *)
Definition authorize_without_redirect_uri : Request :=
  {| headers_Authorization := None;
     headers_Content_Type := None;
     args := [("client_id", "X")];
     form := [];
     is_json := false;
     get_json := Raises unsupported_media_type |}.

(** [Basic] with the base64 text of [other:dummy_secret_abcdef123456]. *)
Definition basic_other_client : string :=
  "Basic b3RoZXI6ZHVtbXlfc2VjcmV0X2FiY2RlZjEyMzQ1Ng==".

(** [POST /token] without [Authorization] header, the credentials in the
    form. *)
Definition form_credentials_request : Request :=
  {| headers_Authorization := None;
     headers_Content_Type := Some "application/x-www-form-urlencoded";
     args := [];
     form := [("grant_type", "authorization_code"); ("code", "dummy_auth_code_12345");
              ("client_id", "dummy_client_12345");
              ("client_secret", "dummy_secret_abcdef123456")];
     is_json := false;
     get_json := Raises unsupported_media_type |}.

Definition json_credentials : list (string * pyval) :=
  [("grant_type", PyStr "authorization_code");
   ("client_id", PyStr "dummy_client_12345");
   ("client_secret", PyStr "dummy_secret_abcdef123456")].

(** [POST /token] without [Authorization] header, the credentials in a JSON
    object. *)
Definition json_credentials_request : Request :=
  {| headers_Authorization := None;
     headers_Content_Type := Some "application/json";
     args := [];
     form := [];
     is_json := true;
     get_json := Returns (PyDict json_credentials) |}.

(** [POST /token], [Content-Type: application/json], body [null]. *)
Definition json_null_token_request : Request :=
  {| headers_Authorization := Some basic_dummy;
     headers_Content_Type := Some "application/json";
     args := [];
     form := [];
     is_json := true;
     get_json := Returns PyNone |}.

(** [POST /token] without [Authorization] header and with the JSON body
    [{"client_id": "dummy_client_12345", "client_secret":
    "dummy_secret_abcdef123456", "grant_type": "authorization_code",
    "code": "\ud800"}]: the code is the lone surrogate U+D800. *)
Definition lone_surrogate_code_request : Request :=
  {| headers_Authorization := None;
     headers_Content_Type := Some "application/json";
     args := [];
     form := [];
     is_json := true;
     get_json := Returns (PyDict (json_credentials ++ [("code", PyLoneStr [55296%N])])) |}.

(** [POST /token] without [Authorization] header and with the JSON body
    [{"client_id": "\ud800"}]. *)
Definition lone_surrogate_client_id_request : Request :=
  {| headers_Authorization := None;
     headers_Content_Type := Some "application/json";
     args := [];
     form := [];
     is_json := true;
     get_json := Returns (PyDict [("client_id", PyLoneStr [55296%N])]) |}.

(** Response headers with a CORS line of the handler's own. *)
Definition sample_headers : Headers :=
  [("Content-Type", "application/json");
   ("access-control-allow-origin", "http://localhost:3000");
   ("Content-Length", "2");
   ("ACCESS-CONTROL-ALLOW-ORIGIN", "null")].

(** ** Properties *)

(** *** Python values *)

Lemma eq_str_spec (v : pyval) (s : string) : eq_str v s = true <-> v = PyStr s.
Proof.
  destruct v; simpl; split; intro H; try discriminate.
  - apply String.eqb_eq in H. now subst.
  - inversion H. apply String.eqb_refl.
Qed.

Lemma ne_str_false (v : pyval) (s : string) : ne_str v s = false <-> v = PyStr s.
Proof.
  unfold ne_str. rewrite negb_false_iff. apply eq_str_spec.
Qed.

Lemma ne_str_true (v : pyval) (s : string) : ne_str v s = true <-> v <> PyStr s.
Proof.
  unfold ne_str. rewrite negb_true_iff. rewrite <- eq_str_spec.
  destruct (eq_str v s); split; congruence.
Qed.

(** [dict(form).get(k)] is [form.get(k)]. *)
Lemma dict_get_of_multidict (d : MultiDict) (k : string) :
  get (dict_of_multidict d) k = Returns (of_opt (multidict_get d k)).
Proof.
  unfold dict_of_multidict, get. f_equal.
  induction d as [|[k' v] d IH]; simpl; [reflexivity|].
  now destruct (k' =? k).
Qed.

(** Splitting at the first colon. *)
Lemma split_colon_1_app (a b : string) :
  no_colon a = true -> split_colon_1 (a ++ ":" ++ b) = [a; b].
Proof.
  induction a as [|c a IH]; simpl; intro H; [reflexivity|].
  apply andb_true_iff in H. destruct H as [Hc Ha].
  apply negb_true_iff in Hc. rewrite Hc.
  simpl in IH. now rewrite (IH Ha).
Qed.

Lemma split_colon_1_no_colon (s : string) :
  no_colon s = true -> split_colon_1 s = [s].
Proof.
  induction s as [|c s IH]; simpl; intro H; [reflexivity|].
  apply andb_true_iff in H. destruct H as [Hc Hs].
  apply negb_true_iff in Hc. rewrite Hc. now rewrite (IH Hs).
Qed.

(** *** [urllib.parse] *)

Lemma quote_plus_all_safe (s : string) :
  Urllib.all_safe s = true -> Urllib.quote_plus s = s.
Proof.
  induction s as [|c s IH]; simpl; intro H; [reflexivity|].
  apply andb_true_iff in H. destruct H as [Hc Hs].
  rewrite Hc. now rewrite (IH Hs).
Qed.

(** *** The credential extractor *)

Lemma startswith_nonempty (h p : string) :
  p <> "" -> startswith h p = true -> negb (h =? "") = true.
Proof.
  intros Hp H. destruct h; [|reflexivity].
  destruct p; [congruence | discriminate].
Qed.

(** A payload [id:secret] in a [Basic] header gives the pair. *)
Lemma header_credentials_basic (h client_id client_secret : string) :
  startswith h "Basic " = true ->
  b64decode_utf8 (slice_from 6 h) = Returns (client_id ++ ":" ++ client_secret) ->
  no_colon client_id = true ->
  header_credentials (Some h) = (PyStr client_id, PyStr client_secret).
Proof.
  intros Hp Hd Hc. unfold header_credentials, basic_credentials.
  rewrite (startswith_nonempty h "Basic " ltac:(discriminate) Hp), Hp, Hd.
  cbn [andb bind]. now rewrite (split_colon_1_app _ _ Hc).
Qed.

(** A header whose payload does not decode, or has no colon, gives nothing:
    the exception of the [try] block is swallowed. *)
Lemma header_credentials_swallowed (h : string) (e : exn) :
  basic_credentials h = Raises e ->
  header_credentials (Some h) = (PyNone, PyNone).
Proof.
  intro H. unfold header_credentials. rewrite H. cbn [bind try_except].
  now destruct (negb (h =? "") && startswith h "Basic ").
Qed.

Lemma basic_credentials_no_colon (h d : string) :
  b64decode_utf8 (slice_from 6 h) = Returns d ->
  no_colon d = true ->
  exists e, basic_credentials h = Raises e.
Proof.
  intros Hd Hc. unfold basic_credentials. rewrite Hd. cbn [bind].
  rewrite (split_colon_1_no_colon _ Hc). simpl. eauto.
Qed.

(** Without a usable header identity and with a form-encoded body, the pair
    is the form's. *)
Lemma parse_client_credentials_form (a : option string) (request : Request) :
  truthy (fst (header_credentials a)) = false ->
  str_in "application/x-www-form-urlencoded"
         (get_default (headers_Content_Type request) "") = true ->
  parse_client_credentials a request =
    Returns (of_opt (multidict_get (form request) "client_id"),
             of_opt (multidict_get (form request) "client_secret")).
Proof.
  intros Hh Hf. unfold parse_client_credentials.
  destruct (header_credentials a) as [i s]. simpl in Hh. now rewrite Hh, Hf.
Qed.

(** With a content type that names neither encoding, the pair is what the
    header left. *)
Lemma parse_client_credentials_other (a : option string) (request : Request) :
  str_in "application/x-www-form-urlencoded"
         (get_default (headers_Content_Type request) "") = false ->
  str_in "application/json"
         (get_default (headers_Content_Type request) "") = false ->
  parse_client_credentials a request = Returns (header_credentials a).
Proof.
  intros Hf Hj. unfold parse_client_credentials.
  destruct (header_credentials a) as [i s]. rewrite Hf, Hj.
  now destruct (negb (truthy i)).
Qed.

(** A header whose [try] block fails leaves the extraction to the body, as
    if there were no header. *)
Lemma parse_client_credentials_malformed_header
  (h : string) (e : exn) (request : Request) :
  basic_credentials h = Raises e ->
  parse_client_credentials (Some h) request = parse_client_credentials None request.
Proof.
  intro H. unfold parse_client_credentials.
  now rewrite (header_credentials_swallowed h e H).
Qed.

(** The extractor returns whenever reading the JSON body returns a dict or
    a false value. *)
Lemma parse_client_credentials_returns
  (a : option string) (request : Request) (json_data : pyval) :
  get_json request = Returns json_data ->
  truthy json_data = false \/ (exists d, json_data = PyDict d) ->
  exists credentials, parse_client_credentials a request = Returns credentials.
Proof.
  intros Hg Hv. unfold parse_client_credentials.
  destruct (header_credentials a) as [i s].
  destruct (negb (truthy i)); [|eauto].
  destruct (str_in "application/x-www-form-urlencoded" _); [eauto|].
  destruct (str_in "application/json" _); [|eauto].
  rewrite Hg. destruct (is_json request); cbn [bind truthy]; [|eauto].
  destruct Hv as [Hf|[d ->]]; [rewrite Hf; eauto|].
  destruct (truthy (PyDict d)); cbn [get bind]; eauto.
Qed.

(** C9: when the Basic header carries [id:secret] with a non-empty id, the
    extractor returns that pair for every request: the content type, the
    form and the JSON body (also one whose reading raises) are not
    consulted. *)
Theorem header_identity_ignores_body
  (h client_id client_secret : string) (request : Request) :
  startswith h "Basic " = true ->
  b64decode_utf8 (slice_from 6 h) = Returns (client_id ++ ":" ++ client_secret) ->
  no_colon client_id = true ->
  client_id <> "" ->
  parse_client_credentials (Some h) request =
    Returns (PyStr client_id, PyStr client_secret).
Proof.
  intros Hp Hd Hc Hne. unfold parse_client_credentials.
  rewrite (header_credentials_basic _ _ _ Hp Hd Hc).
  apply String.eqb_neq in Hne. simpl. now rewrite Hne.
Qed.

(** *** [/token] *)

(** The request data of a form-encoded body. *)
Lemma token_request_data_form (request : Request) :
  str_in "application/x-www-form-urlencoded"
         (get_default (headers_Content_Type request) "") = true ->
  token_request_data request = Some (dict_of_multidict (form request)).
Proof. intro H. unfold token_request_data. now rewrite H. Qed.

(** The request data of a JSON body: the parsed value when it is true,
    the empty dict when it is false or when the parsing raises. *)
Lemma token_request_data_json (request : Request) :
  str_in "application/x-www-form-urlencoded"
         (get_default (headers_Content_Type request) "") = false ->
  str_in "application/json"
         (get_default (headers_Content_Type request) "") = true ->
  token_request_data request =
    Some match get_json request with
         | Returns body => if truthy body then body else PyDict []
         | Raises _ => PyDict []
         end.
Proof.
  intros Hf Hj. unfold token_request_data. rewrite Hf, Hj.
  now destruct (get_json request).
Qed.

Lemma token_request_data_none (request : Request) :
  str_in "application/x-www-form-urlencoded"
         (get_default (headers_Content_Type request) "") = false ->
  str_in "application/json"
         (get_default (headers_Content_Type request) "") = false ->
  token_request_data request = None.
Proof. intros Hf Hj. unfold token_request_data. now rewrite Hf, Hj. Qed.

Lemma token_request_data_some (request : Request) (request_data : pyval) :
  token_request_data request = Some request_data ->
  str_in "application/x-www-form-urlencoded"
         (get_default (headers_Content_Type request) "") = true \/
  str_in "application/json"
         (get_default (headers_Content_Type request) "") = true.
Proof.
  unfold token_request_data.
  destruct (str_in "application/x-www-form-urlencoded" _); [now left|].
  destruct (str_in "application/json" _); [now right | discriminate].
Qed.

Lemma first_surrogate_none (cps : list N) (pos : N) :
  first_surrogate cps pos = None <-> existsb is_surrogate cps = false.
Proof.
  revert pos. induction cps as [|c r IH]; intro pos; simpl; [tauto|].
  destruct (is_surrogate c); simpl; [split; discriminate | apply IH].
Qed.

(** A print raises exactly on a value that is not printable. *)
Lemma print_value_printable (prefix : string) (v : pyval) :
  printable v = true -> print_value prefix v = Returns tt.
Proof.
  destruct v; try reflexivity. simpl. intro H. apply negb_true_iff in H.
  apply (first_surrogate_none _ (N.of_nat (String.length prefix))) in H.
  now rewrite H.
Qed.



Lemma printable_of_opt (o : option string) : printable (of_opt o) = true.
Proof. now destruct o. Qed.

Lemma print_code_flow_printable (code redirect_uri code_verifier : pyval) :
  printable code = true -> printable redirect_uri = true ->
  printable code_verifier = true ->
  print_code_flow code redirect_uri code_verifier = Returns tt.
Proof.
  intros Hc Hr Hv. unfold print_code_flow.
  now rewrite !print_value_printable by assumption.
Qed.


Lemma fixed_credentials_pass (client_id client_secret : pyval) :
  ne_str client_id DUMMY_CLIENT_ID || ne_str client_secret DUMMY_CLIENT_SECRET = false <->
  client_id = PyStr DUMMY_CLIENT_ID /\ client_secret = PyStr DUMMY_CLIENT_SECRET.
Proof.
  rewrite orb_false_iff. now rewrite !ne_str_false.
Qed.

(** The handler case by case. *)
Lemma token_cases (request : Request) :
  token request =
    match parse_client_credentials (headers_Authorization request) request with
    | Raises e => server_error_response e
    | Returns (client_id, client_secret) =>
        if ne_str client_id DUMMY_CLIENT_ID || ne_str client_secret DUMMY_CLIENT_SECRET
        then after_print (print_value "[TOKEN] Invalid client credentials: " client_id)
                         invalid_credentials_response
        else
          match token_request_data request with
          | None => unsupported_content_type_response
          | Some (PyDict d) =>
              if ne_str (dict_get d "grant_type") "authorization_code"
              then after_print (print_value "[TOKEN] Unsupported grant type: "
                                            (dict_get d "grant_type"))
                               unsupported_grant_type_response
              else after_print (print_code_flow (dict_get d "code")
                                                (dict_get d "redirect_uri")
                                                (dict_get d "code_verifier"))
                               (JsonResponse 200 token_response)
          | Some v => server_error_response (no_get_attribute v)
          end
    end.
Proof.
  unfold token.
  destruct (parse_client_credentials _ _) as [[i s]|e]; cbn [bind try_except];
    [|reflexivity].
  destruct (ne_str i DUMMY_CLIENT_ID || ne_str s DUMMY_CLIENT_SECRET) eqn:Hc.
  { now destruct (print_value _ i). }
  apply fixed_credentials_pass in Hc. destruct Hc as [-> ->].
  destruct (token_request_data request) as [v|]; [|reflexivity].
  cbn [print_value bind].
  destruct v; cbn [get bind try_except]; try reflexivity.
  destruct (ne_str (dict_get d "grant_type") "authorization_code").
  { now destruct (print_value _ (dict_get d "grant_type")). }
  cbn [bind]. unfold print_code_flow.
  destruct (print_value "[TOKEN] code: " _); cbn [bind after_print try_except];
    [|reflexivity].
  destruct (print_value "[TOKEN] redirect_uri: " _); cbn [bind after_print try_except];
    [|reflexivity].
  destruct (print_value "[TOKEN] code_verifier: " _); cbn [bind after_print try_except];
    [|reflexivity].
  now destruct (print_value "[TOKEN] Accepting authorization code: " _).
Qed.

(** With the fixed client id and secret extracted and request data whose
    [grant_type] is ['authorization_code'], the response is 200 with the
    fixed token response, whatever printable values the request data hold
    for [code], [redirect_uri] and [code_verifier]. *)
Lemma token_issues_tokens_if_printable (request : Request) (d : list (string * pyval)) :
  parse_client_credentials (headers_Authorization request) request =
    Returns (PyStr DUMMY_CLIENT_ID, PyStr DUMMY_CLIENT_SECRET) ->
  token_request_data request = Some (PyDict d) ->
  dict_get d "grant_type" = PyStr "authorization_code" ->
  printable (dict_get d "code") = true ->
  printable (dict_get d "redirect_uri") = true ->
  printable (dict_get d "code_verifier") = true ->
  token request = JsonResponse 200 token_response.
Proof.
  intros Hc Hd Hg Pc Pr Pv. rewrite token_cases, Hc.
  rewrite (proj2 (fixed_credentials_pass _ _) (conj eq_refl eq_refl)).
  rewrite Hd, Hg. rewrite (proj2 (ne_str_false _ _) eq_refl).
  now rewrite print_code_flow_printable.
Qed.

(** When the extracted id is not the fixed id or the extracted secret is
    not the fixed secret ([None] included), and the id is printable, the
    response is 401 with the one invalid-credentials body. *)
Lemma token_rejects_printable_client_id
  (request : Request) (client_id client_secret : pyval) :
  parse_client_credentials (headers_Authorization request) request =
    Returns (client_id, client_secret) ->
  client_id <> PyStr DUMMY_CLIENT_ID \/ client_secret <> PyStr DUMMY_CLIENT_SECRET ->
  printable client_id = true ->
  token request = invalid_credentials_response.
Proof.
  intros Hc Hne Hp. rewrite token_cases, Hc.
  assert (ne_str client_id DUMMY_CLIENT_ID || ne_str client_secret DUMMY_CLIENT_SECRET = true)
    as ->.
  { apply orb_true_iff. destruct Hne as [H|H]; [left|right]; now apply ne_str_true. }
  now rewrite print_value_printable.
Qed.

(** C1: the handler does not accept every code: with the fixed credentials
    and [grant_type] ['authorization_code'] in a JSON body, a [code] that is
    a lone surrogate makes the print of line 226 raise, and the response is
    500 [server_error]. *)
Theorem token_lone_surrogate_code :
  parse_client_credentials (headers_Authorization lone_surrogate_code_request)
    lone_surrogate_code_request =
    Returns (PyStr DUMMY_CLIENT_ID, PyStr DUMMY_CLIENT_SECRET) /\
  (exists d, token_request_data lone_surrogate_code_request = Some (PyDict d) /\
             dict_get d "grant_type" = PyStr "authorization_code") /\
  token lone_surrogate_code_request =
    JsonResponse 500
      (PyDict [("error", PyStr "server_error");
               ("error_description",
                PyStr "'utf-8' codec can't encode character '\ud800' in position 14: surrogates not allowed")]).
Proof.
  split; [reflexivity|]. split; [|reflexivity].
  eexists. split; reflexivity.
Qed.

(** C3: a mismatch is not always answered 401: an extracted client id that
    is a lone surrogate makes the print of line 185 raise, and the
    response is 500 [server_error]. *)
Theorem token_lone_surrogate_client_id :
  parse_client_credentials (headers_Authorization lone_surrogate_client_id_request)
    lone_surrogate_client_id_request =
    Returns (PyLoneStr [55296%N], PyNone) /\
  token lone_surrogate_client_id_request =
    JsonResponse 500
      (PyDict [("error", PyStr "server_error");
               ("error_description",
                PyStr "'utf-8' codec can't encode character '\ud800' in position 36: surrogates not allowed")]).
Proof. split; reflexivity. Qed.

(** C4 (amended): once the fixed credentials are extracted, a content type
    that names neither form encoding nor JSON gives 400 [invalid_request];
    the body is not read: the response is the same for every form, JSON flag
    and JSON outcome. *)
Theorem token_unsupported_content_type (request : Request) :
  parse_client_credentials (headers_Authorization request) request =
    Returns (PyStr DUMMY_CLIENT_ID, PyStr DUMMY_CLIENT_SECRET) ->
  str_in "application/x-www-form-urlencoded"
         (get_default (headers_Content_Type request) "") = false ->
  str_in "application/json"
         (get_default (headers_Content_Type request) "") = false ->
  token request = unsupported_content_type_response /\
  forall f j g, token (with_body request f j g) = unsupported_content_type_response.
Proof.
  intros Hc Hf Hj.
  assert (forall r,
             headers_Authorization r = headers_Authorization request ->
             headers_Content_Type r = headers_Content_Type request ->
             token r = unsupported_content_type_response) as K.
  { intros r Ha Ht. rewrite token_cases.
    rewrite (parse_client_credentials_other _ request Hf Hj) in Hc.
    rewrite parse_client_credentials_other by (rewrite Ht; assumption).
    injection Hc as Hc. rewrite Ha, Hc.
    rewrite (proj2 (fixed_credentials_pass _ _) (conj eq_refl eq_refl)).
    rewrite token_request_data_none by (rewrite Ht; assumption).
    reflexivity. }
  split; [now apply K | intros f j g; now apply K].
Qed.

(** C6 (amended): once the fixed credentials are extracted and the request
    data are a dict (a form-encoded body; a JSON body that is an object, or
    is false, or does not parse), a printable [grant_type] other than
    ['authorization_code'], or none, gives 400 [unsupported_grant_type]. *)
Theorem token_unsupported_grant_type
  (request : Request) (d : list (string * pyval)) :
  parse_client_credentials (headers_Authorization request) request =
    Returns (PyStr DUMMY_CLIENT_ID, PyStr DUMMY_CLIENT_SECRET) ->
  token_request_data request = Some (PyDict d) ->
  dict_get d "grant_type" <> PyStr "authorization_code" ->
  printable (dict_get d "grant_type") = true ->
  token request = unsupported_grant_type_response.
Proof.
  intros Hc Hd Hg Hp. rewrite token_cases, Hc.
  rewrite (proj2 (fixed_credentials_pass _ _) (conj eq_refl eq_refl)).
  rewrite Hd, (proj2 (ne_str_true _ _) Hg).
  now rewrite print_value_printable.
Qed.

(** *** [/register] *)

(** C8 (amended): when reading the JSON body returns (a value, or [None],
    which counts as empty), the response is 200 with the fixed descriptor:
    [client_id] is [dummy_client_12345] and only [client_id_issued_at]
    depends on the time of the call; when reading the body raises, the
    response is 400 [invalid_request] with the exception's text. *)
Theorem register_response (now : Z) (request : Request) :
  match get_json request with
  | Returns _ =>
      register now request = JsonResponse 200 (dummy_config now) /\
      get (dummy_config now) "client_id" = Returns (PyStr "dummy_client_12345") /\
      forall now' k, k <> "client_id_issued_at" ->
                     get (dummy_config now') k = get (dummy_config now) k
  | Raises e =>
      register now request =
        JsonResponse 400 (PyDict [("error", PyStr "invalid_request");
                                  ("error_description", PyStr (exn_str e))])
  end.
Proof.
  unfold register. destruct (get_json request) as [body|e]; [|reflexivity].
  split; [reflexivity|]. split; [reflexivity|].
  intros now' k Hk. unfold get, dummy_config. f_equal.
  cbn [dict_get].
  repeat match goal with
         | |- context [if ?a =? k then _ else _] =>
             destruct (String.eqb_spec a k) as [<-|?]; [try reflexivity; congruence|]
         end.
  reflexivity.
Qed.

(** *** [/authorize] *)


(** Query first, then form: the query value when it is not empty, else the
    form value. *)
Lemma param_resolution (request : Request) (k : string) :
  param request k =
    match multidict_get (args request) k with
    | Some v => if v =? "" then multidict_get (form request) k else Some v
    | None => multidict_get (form request) k
    end.
Proof.
  unfold param, or_opt, truthy_opt.
  destruct (multidict_get (args request) k) as [v|]; [|reflexivity].
  now destruct (v =? "").
Qed.

Lemma param_default_omitted (request : Request) (k default : string) :
  multidict_get (args request) k = None ->
  multidict_get (form request) k = None ->
  param_default request k default = Some default.
Proof.
  intros Ha Hf. unfold param_default, multidict_get_default.
  now rewrite Ha, Hf.
Qed.

Lemma authorize_missing (request : Request) :
  truthy_opt (param request "client_id") = false \/
  truthy_opt (param request "redirect_uri") = false ->
  authorize request = missing_parameters_response.
Proof.
  unfold authorize. intros [H|H]; rewrite H; cbn [negb orb try_except]; [reflexivity|].
  now rewrite orb_true_r.
Qed.

Lemma authorize_unsupported_response_type (request : Request) :
  truthy_opt (param request "client_id") = true ->
  truthy_opt (param request "redirect_uri") = true ->
  param_default request "response_type" "code" <> Some "code" ->
  authorize request = unsupported_response_type_response.
Proof.
  intros Hc Hr Ht. unfold authorize. rewrite Hc, Hr. cbn [negb orb].
  assert (ne_str (of_opt (param_default request "response_type" "code")) "code" = true)
    as ->; [|reflexivity].
  apply ne_str_true. intro E.
  destruct (param_default request "response_type" "code"); [|discriminate].
  inversion E. congruence.
Qed.

(** The redirect once both checks are passed. *)
Lemma authorize_redirects (request : Request) (client_id redirect_uri : string) :
  param request "client_id" = Some client_id -> client_id <> "" ->
  param request "redirect_uri" = Some redirect_uri -> redirect_uri <> "" ->
  param_default request "response_type" "code" = Some "code" ->
  authorize request =
    RedirectResponse 302
      (redirect_uri ++ "?" ++
       Urllib.urlencode
         (("code", "dummy_auth_code_12345") ::
          (if truthy_opt (param request "state")
           then [("state", format_opt (param request "state"))] else []))).
Proof.
  intros Hc Hcn Hu Hun Ht. apply String.eqb_neq in Hcn, Hun.
  unfold authorize. rewrite Hc, Hu, Ht. cbn [truthy_opt]. rewrite Hcn, Hun.
  cbn [negb orb of_opt]. rewrite (proj2 (ne_str_false _ _) eq_refl).
  reflexivity.
Qed.

Lemma authorize_with_state (request : Request) (client_id redirect_uri S : string) :
  param request "client_id" = Some client_id -> client_id <> "" ->
  param request "redirect_uri" = Some redirect_uri -> redirect_uri <> "" ->
  param_default request "response_type" "code" = Some "code" ->
  param request "state" = Some S -> S <> "" ->
  authorize request =
    RedirectResponse 302
      (redirect_uri ++ "?code=dummy_auth_code_12345&state=" ++ Urllib.quote_plus S).
Proof.
  intros Hc Hcn Hu Hun Ht Hs Hsn.
  rewrite (authorize_redirects request client_id redirect_uri) by assumption.
  apply String.eqb_neq in Hsn. rewrite Hs. cbn [truthy_opt]. rewrite Hsn.
  reflexivity.
Qed.

Lemma authorize_without_state (request : Request) (client_id redirect_uri : string) :
  param request "client_id" = Some client_id -> client_id <> "" ->
  param request "redirect_uri" = Some redirect_uri -> redirect_uri <> "" ->
  param_default request "response_type" "code" = Some "code" ->
  truthy_opt (param request "state") = false ->
  authorize request =
    RedirectResponse 302 (redirect_uri ++ "?code=dummy_auth_code_12345").
Proof.
  intros Hc Hcn Hu Hun Ht Hs.
  rewrite (authorize_redirects request client_id redirect_uri) by assumption.
  now rewrite Hs.
Qed.

(** C5: [client_id] and [redirect_uri], each resolved from the query and
    then from the form, are checked first: when either is missing or empty
    the response is 400 [invalid_request]; otherwise a [response_type]
    (['code'] when omitted) other than ['code'] gives 400
    [unsupported_response_type]; otherwise the request is redirected to the
    given [redirect_uri], whatever the client id and the redirect URI are. *)
Theorem authorize_validation_order (request : Request) :
  (truthy_opt (param request "client_id") = false \/
   truthy_opt (param request "redirect_uri") = false ->
   authorize request = missing_parameters_response) /\
  (truthy_opt (param request "client_id") = true ->
   truthy_opt (param request "redirect_uri") = true ->
   param_default request "response_type" "code" <> Some "code" ->
   authorize request = unsupported_response_type_response) /\
  (forall client_id redirect_uri,
     param request "client_id" = Some client_id -> client_id <> "" ->
     param request "redirect_uri" = Some redirect_uri -> redirect_uri <> "" ->
     param_default request "response_type" "code" = Some "code" ->
     exists query,
       authorize request = RedirectResponse 302 (redirect_uri ++ "?" ++ query)) /\
  (forall k,
     param request k =
       match multidict_get (args request) k with
       | Some v => if v =? "" then multidict_get (form request) k else Some v
       | None => multidict_get (form request) k
       end) /\
  (multidict_get (args request) "response_type" = None ->
   multidict_get (form request) "response_type" = None ->
   param_default request "response_type" "code" = Some "code").
Proof.
  split; [apply authorize_missing|].
  split; [apply authorize_unsupported_response_type|].
  split; [|split; [apply param_resolution | apply param_default_omitted]].
  intros c u Hc Hcn Hu Hun Ht.
  rewrite (authorize_redirects request c u) by assumption. eauto.
Qed.

(** C2 (amended): with a non-empty [client_id] and [redirect_uri] and
    response type ['code'], the response is a 302 redirect to [redirect_uri]
    followed by [?code=dummy_auth_code_12345] and, for a non-empty state [S],
    by [&state=] and [quote_plus(S)], which is [S] itself when [S] has only
    letters, digits and [_.-~]; without a state, or with an empty one,
    nothing follows the code. *)
Theorem authorize_redirect_target
  (request : Request) (client_id redirect_uri : string) :
  param request "client_id" = Some client_id -> client_id <> "" ->
  param request "redirect_uri" = Some redirect_uri -> redirect_uri <> "" ->
  param_default request "response_type" "code" = Some "code" ->
  (forall S, param request "state" = Some S -> S <> "" ->
     authorize request =
       RedirectResponse 302
         (redirect_uri ++ "?code=dummy_auth_code_12345&state=" ++ Urllib.quote_plus S) /\
     (Urllib.all_safe S = true ->
      authorize request =
        RedirectResponse 302
          (redirect_uri ++ "?code=dummy_auth_code_12345&state=" ++ S))) /\
  (truthy_opt (param request "state") = false ->
     authorize request =
       RedirectResponse 302 (redirect_uri ++ "?code=dummy_auth_code_12345")).
Proof.
  intros Hc Hcn Hu Hun Ht. split.
  - intros S Hs Hsn.
    pose proof (authorize_with_state request client_id redirect_uri S
                  Hc Hcn Hu Hun Ht Hs Hsn) as K.
    split; [exact K|].
    intro Hsafe. rewrite K. now rewrite (quote_plus_all_safe _ Hsafe).
  - now apply (authorize_without_state request client_id redirect_uri).
Qed.

(** *** The extractor on a JSON body that does not parse *)

(** C7: without a header identity, on [Content-Type: application/json] and a
    body that does not parse, the exception of [request.get_json()] leaves
    [parse_client_credentials], and [/token] answers 500 [server_error]. *)
Theorem parse_client_credentials_raises :
  parse_client_credentials None unparseable_json_request = Raises bad_request /\
  token unparseable_json_request =
    JsonResponse 500 (PyDict [("error", PyStr "server_error");
                              ("error_description", PyStr (exn_str bad_request))]).
Proof. split; reflexivity. Qed.

(** *** Empty values *)





(** ** Further properties *)

(** *** The credential extractor, continued *)

Lemma split_colon_1_two (d a b : string) :
  split_colon_1 d = [a; b] -> d = a ++ ":" ++ b /\ no_colon a = true.
Proof.
  revert a. induction d as [|c d IH]; intros a H; simpl in H; [discriminate|].
  destruct (Ascii.eqb_spec c ":"%char) as [->|Hc].
  - inversion H; subst. now split.
  - destruct (split_colon_1 d) as [|x rest] eqn:E; [discriminate|].
    inversion H; subst. destruct (IH x eq_refl) as [-> Hx].
    split; [reflexivity|]. simpl. rewrite Hx.
    apply Ascii.eqb_neq in Hc. now rewrite Hc.
Qed.

Lemma unpack2_returns (l : list string) (a b : string) :
  unpack2 l = Returns (a, b) -> l = [a; b].
Proof.
  destruct l as [|x [|y [|z l]]]; simpl; intro H; try discriminate.
  now inversion H.
Qed.

(** X1: the header gives the pair [(id, secret)] exactly when it starts with
    [Basic ] and its payload decodes to [id:secret], split at the first
    colon: the id has no colon, the secret keeps its own. *)
Theorem header_credentials_iff (h client_id client_secret : string) :
  header_credentials (Some h) = (PyStr client_id, PyStr client_secret) <->
  startswith h "Basic " = true /\
  b64decode_utf8 (slice_from 6 h) = Returns (client_id ++ ":" ++ client_secret) /\
  no_colon client_id = true.
Proof.
  split.
  - unfold header_credentials, basic_credentials.
    destruct (negb (h =? "") && startswith h "Basic ") eqn:Hp; [|discriminate].
    apply andb_true_iff in Hp. destruct Hp as [_ Hp].
    destruct (b64decode_utf8 (slice_from 6 h)) as [d|e]; [|discriminate].
    cbn [bind]. destruct (unpack2 (split_colon_1 d)) as [[a b]|e] eqn:Hu;
      [|discriminate].
    cbn [bind try_except]. intro H. inversion H; subst.
    apply unpack2_returns in Hu. apply split_colon_1_two in Hu.
    destruct Hu as [-> Hc]. now repeat split.
  - intros (Hp & Hd & Hc). now apply header_credentials_basic.
Qed.

(** The header leaves either a pair of strings or nothing. *)
Lemma header_credentials_cases (a : option string) :
  header_credentials a = (PyNone, PyNone) \/
  exists i s, header_credentials a = (PyStr i, PyStr s).
Proof.
  unfold header_credentials. destruct a as [h|]; [|now left].
  destruct (negb (h =? "") && startswith h "Basic "); [|now left].
  destruct (basic_credentials h) as [[i s]|e]; cbn [bind try_except]; eauto.
Qed.

(** X2: a header that is empty, does not start with [Basic ], does not
    decode, or decodes to a text without colon counts for nothing: the
    extractor does what it does without header. *)
Theorem unusable_header_is_no_header (h : string) (request : Request) :
  h = "" \/
  startswith h "Basic " = false \/
  (exists e, b64decode_utf8 (slice_from 6 h) = Raises e) \/
  (exists d, b64decode_utf8 (slice_from 6 h) = Returns d /\ no_colon d = true) ->
  parse_client_credentials (Some h) request = parse_client_credentials None request.
Proof.
  intro H.
  assert (header_credentials (Some h) = (PyNone, PyNone)) as K.
  { destruct H as [->|[Hp|[[e He]|(d & Hd & Hc)]]].
    - reflexivity.
    - unfold header_credentials. rewrite Hp. now rewrite andb_false_r.
    - apply (header_credentials_swallowed h e).
      unfold basic_credentials. now rewrite He.
    - destruct (basic_credentials_no_colon h d Hd Hc) as [e He].
      now apply (header_credentials_swallowed h e). }
  unfold parse_client_credentials. now rewrite K.
Qed.

(** Reading both fields of the body raises when reading the first does. *)
Lemma get_both_raises_iff (v : pyval) (e : exn) :
  (client_id <- get v "client_id" ;;
   client_secret <- get v "client_secret" ;;
   Returns (client_id, client_secret)) = Raises e <->
  get v "client_id" = Raises e.
Proof.
  destruct v; cbn [get bind]; split; intro H; congruence.
Qed.

(** X3: the extractor raises exactly when the header gives no usable id, the
    content type names JSON and not form encoding, the request is JSON, and
    either reading the body raises or the body is a true value that is not
    an object. *)
Theorem parse_client_credentials_raises_iff
  (a : option string) (request : Request) (e : exn) :
  parse_client_credentials a request = Raises e <->
  truthy (fst (header_credentials a)) = false /\
  str_in "application/x-www-form-urlencoded"
         (get_default (headers_Content_Type request) "") = false /\
  str_in "application/json"
         (get_default (headers_Content_Type request) "") = true /\
  is_json request = true /\
  (get_json request = Raises e \/
   exists json_data,
     get_json request = Returns json_data /\ truthy json_data = true /\
     get json_data "client_id" = Raises e).
Proof.
  unfold parse_client_credentials.
  destruct (header_credentials a) as [i s]. cbn [fst].
  destruct (truthy i); cbn [negb].
  { split; [discriminate | intros (H & _); discriminate]. }
  destruct (str_in "application/x-www-form-urlencoded" _).
  { split; [discriminate | intros (_ & H & _); discriminate]. }
  destruct (str_in "application/json" _).
  2:{ split; [discriminate | intros (_ & _ & H & _); discriminate]. }
  destruct (is_json request).
  2:{ cbn [bind truthy]. split; [discriminate | intros (_ & _ & _ & H & _); discriminate]. }
  destruct (get_json request) as [v|e'] eqn:Hg; cbn [bind].
  - destruct (truthy v) eqn:Hv.
    + rewrite (get_both_raises_iff v e). split.
      * intro H. repeat split. right. exists v. now repeat split.
      * intros (_ & _ & _ & _ & [H|(v' & Hv' & _ & H)]); [discriminate|].
        now inversion Hv'; subst.
    + split; [discriminate|].
      intros (_ & _ & _ & _ & [H|(v' & Hv' & Hv'' & _)]); [discriminate|].
      inversion Hv'; subst. congruence.
  - split.
    + intro H. repeat split. left. congruence.
    + intros (_ & _ & _ & _ & [H|(v' & Hv' & _)]); [congruence | discriminate].
Qed.

(** *** [/token], continued *)

(** X4: tokens are issued only to the fixed client with the authorization
    code grant: a 200 response means that the extractor returned the fixed
    id and secret, that the request data are a dict whose [grant_type] is
    ['authorization_code'], and the body is the fixed token response. *)
Theorem token_issued_only_if (request : Request) :
  status_of (token request) = 200%Z ->
  parse_client_credentials (headers_Authorization request) request =
    Returns (PyStr DUMMY_CLIENT_ID, PyStr DUMMY_CLIENT_SECRET) /\
  (exists d, token_request_data request = Some (PyDict d) /\
             dict_get d "grant_type" = PyStr "authorization_code") /\
  token request = JsonResponse 200 token_response.
Proof.
  rewrite token_cases.
  destruct (parse_client_credentials _ _) as [[i s]|e]; [|discriminate].
  destruct (ne_str i DUMMY_CLIENT_ID || ne_str s DUMMY_CLIENT_SECRET) eqn:Hc.
  { destruct (print_value _ i); discriminate. }
  apply fixed_credentials_pass in Hc. destruct Hc as [-> ->].
  destruct (token_request_data request) as [v|]; [|discriminate].
  destruct v; try discriminate.
  destruct (ne_str (dict_get d "grant_type") "authorization_code") eqn:Hg.
  { destruct (print_value _ (dict_get d "grant_type")); discriminate. }
  apply ne_str_false in Hg.
  destruct (print_code_flow _ _ _); [|discriminate].
  intros _. split; [reflexivity|]. split; [|reflexivity].
  exists d. now split.
Qed.




(** A usable header identity is the extractor's result. *)
Lemma parse_client_credentials_header
  (a : option string) (request : Request) (client_id client_secret : string) :
  header_credentials a = (PyStr client_id, PyStr client_secret) ->
  client_id <> "" ->
  parse_client_credentials a request = Returns (PyStr client_id, PyStr client_secret).
Proof.
  intros Hh Hne. unfold parse_client_credentials. rewrite Hh.
  apply String.eqb_neq in Hne. cbn [truthy]. now rewrite Hne.
Qed.

Lemma dict_get_map_multidict (d : MultiDict) (k : string) :
  dict_get (map (fun kv => (fst kv, PyStr (snd kv))) d) k = of_opt (multidict_get d k).
Proof.
  induction d as [|[k' v] d IH]; simpl; [reflexivity|].
  now destruct (k' =? k).
Qed.

(** X6: with the fixed credentials extracted and a JSON content type, a body
    whose reading raises, or is [None] or another false value, counts as
    the empty dict: the response is 400 [unsupported_grant_type]. *)
Theorem token_unreadable_json_is_empty (request : Request) :
  parse_client_credentials (headers_Authorization request) request =
    Returns (PyStr DUMMY_CLIENT_ID, PyStr DUMMY_CLIENT_SECRET) ->
  str_in "application/x-www-form-urlencoded"
         (get_default (headers_Content_Type request) "") = false ->
  str_in "application/json"
         (get_default (headers_Content_Type request) "") = true ->
  (forall body, get_json request = Returns body -> truthy body = false) ->
  token request = unsupported_grant_type_response.
Proof.
  intros Hc Hf Hj Hb. rewrite token_cases, Hc.
  rewrite (proj2 (fixed_credentials_pass _ _) (conj eq_refl eq_refl)).
  rewrite (token_request_data_json request Hf Hj).
  destruct (get_json request) as [body|e]; [|reflexivity].
  now rewrite (Hb body eq_refl).
Qed.

(** X7: credentials in a form-encoded body are accepted: without a usable
    header identity, form fields [client_id] and [client_secret] with the
    fixed values and [grant_type=authorization_code] give the tokens. *)
Theorem token_accepts_form_credentials (request : Request) :
  truthy (fst (header_credentials (headers_Authorization request))) = false ->
  str_in "application/x-www-form-urlencoded"
         (get_default (headers_Content_Type request) "") = true ->
  multidict_get (form request) "client_id" = Some DUMMY_CLIENT_ID ->
  multidict_get (form request) "client_secret" = Some DUMMY_CLIENT_SECRET ->
  multidict_get (form request) "grant_type" = Some "authorization_code" ->
  token request = JsonResponse 200 token_response.
Proof.
  intros Hh Hf Hi Hs Hg. rewrite token_cases.
  rewrite (parse_client_credentials_form _ request Hh Hf), Hi, Hs.
  cbn [of_opt].
  rewrite (proj2 (fixed_credentials_pass _ _) (conj eq_refl eq_refl)).
  rewrite (token_request_data_form request Hf). unfold dict_of_multidict.
  rewrite !dict_get_map_multidict, Hg. cbn [of_opt].
  rewrite (proj2 (ne_str_false _ _) eq_refl).
  now rewrite print_code_flow_printable by apply printable_of_opt.
Qed.

(** X8: credentials in a JSON object are accepted: without a usable header
    identity, a JSON request whose object holds the fixed [client_id] and
    [client_secret], [grant_type] ['authorization_code'] and printable
    [code], [redirect_uri] and [code_verifier] (any value but a string with
    a lone surrogate, or none) gives the tokens. *)
Theorem token_accepts_json_credentials
  (request : Request) (d : list (string * pyval)) :
  truthy (fst (header_credentials (headers_Authorization request))) = false ->
  str_in "application/x-www-form-urlencoded"
         (get_default (headers_Content_Type request) "") = false ->
  str_in "application/json"
         (get_default (headers_Content_Type request) "") = true ->
  is_json request = true ->
  get_json request = Returns (PyDict d) ->
  dict_get d "client_id" = PyStr DUMMY_CLIENT_ID ->
  dict_get d "client_secret" = PyStr DUMMY_CLIENT_SECRET ->
  dict_get d "grant_type" = PyStr "authorization_code" ->
  printable (dict_get d "code") = true ->
  printable (dict_get d "redirect_uri") = true ->
  printable (dict_get d "code_verifier") = true ->
  token request = JsonResponse 200 token_response.
Proof.
  intros Hh Hf Hj Hi Hg Hci Hcs Hgt Pc Pr Pv.
  assert (truthy (PyDict d) = true) as Ht.
  { destruct d; [discriminate Hci | reflexivity]. }
  apply (token_issues_tokens_if_printable request d); try assumption.
  - unfold parse_client_credentials.
    destruct (header_credentials (headers_Authorization request)) as [i s].
    cbn [fst] in Hh. rewrite Hh, Hf, Hj, Hi, Hg. cbn [negb bind].
    rewrite Ht. cbn [get bind]. now rewrite Hci, Hcs.
  - now rewrite (token_request_data_json request Hf Hj), Hg, Ht.
Qed.

(** X9: the header comes first: when it carries a non-empty id and the pair
    is not the fixed one, the response is 401 whatever the body holds, also
    a body with the fixed credentials. *)
Theorem token_header_overrides_body
  (request : Request) (h client_id client_secret : string) :
  headers_Authorization request = Some h ->
  startswith h "Basic " = true ->
  b64decode_utf8 (slice_from 6 h) = Returns (client_id ++ ":" ++ client_secret) ->
  no_colon client_id = true ->
  client_id <> "" ->
  client_id <> DUMMY_CLIENT_ID \/ client_secret <> DUMMY_CLIENT_SECRET ->
  token request = invalid_credentials_response.
Proof.
  intros Ha Hp Hd Hc Hne Hw.
  apply (token_rejects_printable_client_id request (PyStr client_id) (PyStr client_secret)).
  - rewrite Ha.
    apply (parse_client_credentials_header (Some h) request client_id client_secret
             (header_credentials_basic h _ _ Hp Hd Hc) Hne).
  - destruct Hw as [H|H]; [left|right]; congruence.
  - reflexivity.
Qed.

(** X10: the credentials that [/register] hands out are the ones [/token]
    accepts: a Basic header made of the [client_id] and [client_secret] of a
    registration response, on a request whose data are a dict with
    [grant_type] ['authorization_code'] and printable [code],
    [redirect_uri] and [code_verifier], gives the tokens. *)
Theorem registered_credentials_are_accepted
  (now : Z) (registration request : Request) (body : pyval)
  (d : list (string * pyval)) (h client_id client_secret : string) :
  get_json registration = Returns body ->
  body_get (register now registration) "client_id" = PyStr client_id ->
  body_get (register now registration) "client_secret" = PyStr client_secret ->
  headers_Authorization request = Some h ->
  startswith h "Basic " = true ->
  b64decode_utf8 (slice_from 6 h) = Returns (client_id ++ ":" ++ client_secret) ->
  token_request_data request = Some (PyDict d) ->
  dict_get d "grant_type" = PyStr "authorization_code" ->
  printable (dict_get d "code") = true ->
  printable (dict_get d "redirect_uri") = true ->
  printable (dict_get d "code_verifier") = true ->
  token request = JsonResponse 200 token_response.
Proof.
  intros Hb Hi Hs Ha Hp Hd Hr Hg Pc Pr Pv.
  unfold register in Hi, Hs. rewrite Hb in Hi, Hs.
  cbn [bind try_except jsonify body_get dummy_config] in Hi, Hs.
  inversion Hi as [Hi']. inversion Hs as [Hs']. clear Hi Hs.
  apply (token_issues_tokens_if_printable request d); try assumption.
  rewrite Ha, Hi', Hs'.
  apply parse_client_credentials_header.
  - apply header_credentials_basic; try assumption. now rewrite <- Hi'.
  - rewrite <- Hi'. discriminate.
Qed.

(** *** [/authorize], continued *)

(** X11: [/authorize] reads four parameters: two requests that resolve
    [client_id], [redirect_uri], [response_type] and [state] alike get the
    same response, whatever their [scope], [code_challenge],
    [code_challenge_method], headers and body are. *)
Theorem authorize_reads_four_parameters (request request' : Request) :
  param request "client_id" = param request' "client_id" ->
  param request "redirect_uri" = param request' "redirect_uri" ->
  param_default request "response_type" "code" =
    param_default request' "response_type" "code" ->
  param request "state" = param request' "state" ->
  authorize request = authorize request'.
Proof.
  intros Hc Hu Ht Hs. unfold authorize. now rewrite Hc, Hu, Ht, Hs.
Qed.

Lemma all_escaped_app (a b : string) :
  Urllib.all_escaped (a ++ b) = Urllib.all_escaped a && Urllib.all_escaped b.
Proof.
  induction a as [|c a IH]; simpl; [reflexivity|].
  now rewrite IH, andb_assoc.
Qed.

Lemma percent_all_escaped (c : ascii) : Urllib.all_escaped (Urllib.percent c) = true.
Proof. destruct c as [[] [] [] [] [] [] [] []]; reflexivity. Qed.

(** A [quote_plus] result is made of safe bytes, [+] and [%]. *)
Lemma quote_plus_all_escaped (s : string) :
  Urllib.all_escaped (Urllib.quote_plus s) = true.
Proof.
  induction s as [|c s IH]; [reflexivity|].
  cbn [Urllib.quote_plus].
  destruct (Urllib.always_safe c) eqn:Hs.
  - cbn [Urllib.all_escaped]. unfold Urllib.escaped_byte. now rewrite Hs, IH.
  - destruct (Ascii.eqb c " "%char).
    + cbn [Urllib.all_escaped]. now rewrite IH.
    + now rewrite all_escaped_app, percent_all_escaped, IH.
Qed.

Lemma all_escaped_occurs (c : ascii) (s : string) :
  Urllib.escaped_byte c = false ->
  Urllib.all_escaped s = true ->
  Urllib.occurs c s = false.
Proof.
  intros Hc. induction s as [|c' s IH]; simpl; intro H; [reflexivity|].
  apply andb_true_iff in H. destruct H as [Hc' Hs].
  rewrite (IH Hs), orb_false_r.
  destruct (Ascii.eqb_spec c' c) as [->|]; [congruence | reflexivity].
Qed.

(** X12: the state cannot add to the redirect: what follows [&state=] is
    made of letters, digits and [_.-~+%] only, so it holds no [&], [=], [#],
    [?], [/] or space. *)
Theorem authorize_state_is_escaped
  (request : Request) (client_id redirect_uri S : string) :
  param request "client_id" = Some client_id -> client_id <> "" ->
  param request "redirect_uri" = Some redirect_uri -> redirect_uri <> "" ->
  param_default request "response_type" "code" = Some "code" ->
  param request "state" = Some S -> S <> "" ->
  exists q,
    authorize request =
      RedirectResponse 302 (redirect_uri ++ "?code=dummy_auth_code_12345&state=" ++ q) /\
    Urllib.all_escaped q = true /\
    Urllib.occurs "&" q = false /\ Urllib.occurs "=" q = false /\
    Urllib.occurs "#" q = false /\ Urllib.occurs "?" q = false /\
    Urllib.occurs "/" q = false /\ Urllib.occurs " " q = false.
Proof.
  intros Hc Hcn Hu Hun Ht Hs Hsn. exists (Urllib.quote_plus S).
  split; [now apply (authorize_with_state request client_id)|].
  pose proof (quote_plus_all_escaped S) as Hq.
  split; [exact Hq|].
  repeat split; apply all_escaped_occurs; try exact Hq; reflexivity.
Qed.

Lemma unquote_percent (c : ascii) (s : string) :
  Urllib.unquote_plus (Urllib.percent c ++ s) = String c (Urllib.unquote_plus s).
Proof. destruct c as [[] [] [] [] [] [] [] []]; reflexivity. Qed.

Lemma always_safe_plain (c : ascii) :
  Urllib.always_safe c = true ->
  Ascii.eqb c "+"%char = false /\ Ascii.eqb c "%"%char = false.
Proof.
  destruct c as [[] [] [] [] [] [] [] []]; intro H; try discriminate H;
    split; reflexivity.
Qed.

(** Decoding an encoded text gives the text back. *)
Lemma unquote_quote_plus (s : string) :
  Urllib.unquote_plus (Urllib.quote_plus s) = s.
Proof.
  induction s as [|c s IH]; [reflexivity|].
  cbn [Urllib.quote_plus].
  destruct (Urllib.always_safe c) eqn:Hs.
  - destruct (always_safe_plain c Hs) as [Hp Hq].
    cbn [Urllib.unquote_plus]. now rewrite Hp, Hq, IH.
  - destruct (Ascii.eqb_spec c " "%char) as [->|Hne].
    + cbn [Urllib.unquote_plus]. cbn. now rewrite IH.
    + now rewrite unquote_percent, IH.
Qed.

Lemma append_cancel_l (u a b : string) : u ++ a = u ++ b -> a = b.
Proof.
  induction u as [|c u IH]; simpl; intro H; [exact H|].
  inversion H. now apply IH.
Qed.

(** X13: the redirect tells the states apart: two accepted requests with
    the same [redirect_uri] and the same response have the same state. *)
Theorem authorize_state_is_recoverable
  (request request' : Request) (client_id client_id' redirect_uri S S' : string) :
  param request "client_id" = Some client_id -> client_id <> "" ->
  param request' "client_id" = Some client_id' -> client_id' <> "" ->
  param request "redirect_uri" = Some redirect_uri ->
  param request' "redirect_uri" = Some redirect_uri ->
  redirect_uri <> "" ->
  param_default request "response_type" "code" = Some "code" ->
  param_default request' "response_type" "code" = Some "code" ->
  param request "state" = Some S -> S <> "" ->
  param request' "state" = Some S' -> S' <> "" ->
  authorize request = authorize request' ->
  S = S'.
Proof.
  intros Hc Hcn Hc' Hcn' Hu Hu' Hun Ht Ht' Hs Hsn Hs' Hsn' H.
  rewrite (authorize_with_state request client_id redirect_uri S) in H by assumption.
  rewrite (authorize_with_state request' client_id' redirect_uri S') in H by assumption.
  inversion H as [H']. apply append_cancel_l in H'.
  apply (append_cancel_l "?code=dummy_auth_code_12345&state=") in H'.
  rewrite <- (unquote_quote_plus S), <- (unquote_quote_plus S'). now rewrite H'.
Qed.

(** *** [/.well-known/oauth-authorization-server] *)

Lemma rstrip_slash_slashes (n : nat) : rstrip_slash (slashes n) = "".
Proof. induction n as [|n IH]; simpl; [reflexivity|]. now rewrite IH. Qed.

(** Stripping [r] followed by slashes gives [r], when [r] ends otherwise. *)
Lemma rstrip_slash_app (r : string) (n : nat) :
  endswith_slash r = false -> rstrip_slash (r ++ slashes n) = r.
Proof.
  induction r as [|c r IH]; intro H.
  - apply rstrip_slash_slashes.
  - cbn [append rstrip_slash]. destruct r as [|c' r].
    + cbn [append]. rewrite rstrip_slash_slashes.
      cbn [endswith_slash] in H. now rewrite H.
    + rewrite (IH H). reflexivity.
Qed.

Lemma rstrip_slash_no_trailing (s : string) : endswith_slash (rstrip_slash s) = false.
Proof.
  induction s as [|c s IH]; [reflexivity|].
  cbn [rstrip_slash]. destruct (rstrip_slash s) as [|c' r].
  - destruct (Ascii.eqb c "/"%char) eqn:E; [reflexivity|].
    cbn [endswith_slash]. exact E.
  - exact IH.
Qed.

Lemma rstrip_slash_spec (s : string) : exists n, s = rstrip_slash s ++ slashes n.
Proof.
  induction s as [|c s [n IH]]; [now exists O|].
  cbn [rstrip_slash]. destruct (rstrip_slash s) as [|c' r].
  - destruct (Ascii.eqb_spec c "/"%char) as [->|].
    + exists (S n). cbn. now rewrite IH at 1.
    + exists n. cbn. now rewrite IH at 1.
  - exists n. cbn [append]. now rewrite IH at 1.
Qed.

(** X14: the issuer is the host URL without its trailing slashes, so it
    never ends with a slash, and each endpoint is the issuer followed by its
    path; the status is 200. *)
Theorem well_known_endpoints (host_url : string) :
  exists issuer n,
    host_url = issuer ++ slashes n /\
    endswith_slash issuer = false /\
    status_of (well_known_oauth host_url) = 200%Z /\
    body_get (well_known_oauth host_url) "issuer" = PyStr issuer /\
    body_get (well_known_oauth host_url) "authorization_endpoint" =
      PyStr (issuer ++ "/authorize") /\
    body_get (well_known_oauth host_url) "token_endpoint" =
      PyStr (issuer ++ "/token") /\
    body_get (well_known_oauth host_url) "registration_endpoint" =
      PyStr (issuer ++ "/register").
Proof.
  destruct (rstrip_slash_spec host_url) as [n Hn].
  exists (rstrip_slash host_url), n.
  split; [exact Hn|]. split; [apply rstrip_slash_no_trailing|].
  repeat split.
Qed.

(** X15: host URLs that differ in trailing slashes only have the same
    metadata. *)
Theorem well_known_ignores_trailing_slashes (host_url : string) (n : nat) :
  well_known_oauth (host_url ++ slashes n) = well_known_oauth host_url.
Proof.
  unfold well_known_oauth.
  destruct (rstrip_slash_spec host_url) as [m Hm].
  assert (rstrip_slash (host_url ++ slashes n) = rstrip_slash host_url) as ->;
    [|reflexivity].
  rewrite Hm at 1.
  assert (forall a b, slashes a ++ slashes b = slashes (a + b)) as Hs.
  { induction a as [|a IH]; intro b; simpl; [reflexivity|]. now rewrite IH. }
  assert (forall x y z : string, (x ++ y) ++ z = x ++ (y ++ z)) as Ha.
  { induction x as [|c x IH]; intros y z; simpl; [reflexivity|]. now rewrite IH. }
  rewrite Ha, Hs. apply rstrip_slash_app, rstrip_slash_no_trailing.
Qed.

(** *** CORS configuration *)

Lemma same_header_eq (k k' : string) : same_header k k' = true <-> lower k = lower k'.
Proof. apply String.eqb_eq. Qed.

Lemma same_header_refl (k : string) : same_header k k = true.
Proof. apply String.eqb_refl. Qed.

(** Names equal to [key] compare alike with any other name. *)
Lemma same_header_trans (k key key' : string) :
  same_header k key = true -> same_header k key' = same_header key key'.
Proof.
  intro H. apply same_header_eq in H. unfold same_header. now rewrite H.
Qed.

Lemma same_header_right (k key key' : string) :
  lower key = lower key' -> same_header k key = same_header k key'.
Proof. intro H. unfold same_header. now rewrite H. Qed.

Lemma headers_get_lines_named (h : Headers) (key : string) :
  headers_get h key = option_map snd (hd_error (lines_named key h)).
Proof.
  induction h as [|[k v] h IH]; [reflexivity|].
  cbn [headers_get lines_named filter fst].
  destruct (same_header k key); [reflexivity | exact IH].
Qed.

Lemma lines_named_removed (key : string) (h : Headers) :
  lines_named key (filter (fun kv => negb (same_header (fst kv) key)) h) = [].
Proof.
  induction h as [|[k v] h IH]; [reflexivity|].
  cbn [filter fst]. destruct (same_header k key) eqn:E; cbn [negb]; [exact IH|].
  cbn [lines_named filter fst]. rewrite E. exact IH.
Qed.

(** Setting a header leaves exactly one line of that name, the new one. *)
Lemma lines_named_set (h : Headers) (key value : string) :
  lines_named key (headers_set h key value) = [(key, value)].
Proof.
  induction h as [|[k v] h IH].
  - cbn [headers_set lines_named filter fst]. now rewrite same_header_refl.
  - cbn [headers_set]. destruct (same_header k key) eqn:E.
    + cbn [lines_named filter fst]. rewrite same_header_refl.
      f_equal. apply lines_named_removed.
    + cbn [lines_named filter fst]. rewrite E. exact IH.
Qed.

(** A filter that drops the lines named [key] does not see the setting. *)
Lemma filter_set_dropped (P : string -> bool) (h : Headers) (key value : string) :
  (forall k, same_header k key = true -> P k = false) ->
  filter (fun kv => P (fst kv)) (headers_set h key value) =
  filter (fun kv => P (fst kv)) h.
Proof.
  intro HP. induction h as [|[k v] h IH].
  - cbn [headers_set filter fst]. now rewrite (HP key (same_header_refl key)).
  - cbn [headers_set]. destruct (same_header k key) eqn:E.
    + cbn [filter fst]. rewrite (HP key (same_header_refl key)), (HP k E).
      clear IH. induction h as [|[k' v'] h IH]; [reflexivity|].
      cbn [filter fst]. destruct (same_header k' key) eqn:E'; cbn [negb].
      * now rewrite (HP k' E').
      * cbn [filter fst]. now rewrite IH.
    + cbn [filter fst]. now rewrite IH.
Qed.

Lemma lines_named_set_other (h : Headers) (key value key' : string) :
  same_header key key' = false ->
  lines_named key' (headers_set h key value) = lines_named key' h.
Proof.
  intro H. unfold lines_named.
  apply (filter_set_dropped (fun k => same_header k key')).
  intros k Hk. now rewrite (same_header_trans k key key' Hk).
Qed.

(** Setting the line that is already the only one of its name changes
    nothing. *)
Lemma headers_set_fixed (h : Headers) (key value : string) :
  lines_named key h = [(key, value)] -> headers_set h key value = h.
Proof.
  induction h as [|[k v] h IH]; [discriminate|].
  cbn [lines_named filter fst headers_set].
  destruct (same_header k key) eqn:E.
  - intro H. inversion H as [[Hk Hv Hr]]. f_equal.
    clear IH H. induction h as [|[k' v'] h IH]; [reflexivity|].
    cbn [filter fst] in *. destruct (same_header k' key); [discriminate Hr|].
    cbn [negb]. f_equal. exact (IH Hr).
  - intro H. f_equal. exact (IH H).
Qed.

(** After [after_request] each CORS name has one line. *)
Lemma after_request_lines (headers : Headers) :
  lines_named "Access-Control-Allow-Origin" (after_request headers) =
    [("Access-Control-Allow-Origin", "*")] /\
  lines_named "Access-Control-Allow-Headers" (after_request headers) =
    [("Access-Control-Allow-Headers", "Content-Type,Authorization,Accept")] /\
  lines_named "Access-Control-Allow-Methods" (after_request headers) =
    [("Access-Control-Allow-Methods", "GET,POST,OPTIONS")] /\
  lines_named "Access-Control-Allow-Credentials" (after_request headers) =
    [("Access-Control-Allow-Credentials", "true")].
Proof.
  unfold after_request. repeat split;
    repeat first [ apply lines_named_set
                 | rewrite lines_named_set_other by reflexivity ].
Qed.

(** X16: every response gets the four CORS headers, whatever headers the
    handler had set: each name has exactly one line, with the fixed value,
    and a lookup under any letter case finds that value. *)
Theorem after_request_sets_cors (headers : Headers) :
  (lines_named "Access-Control-Allow-Origin" (after_request headers) =
     [("Access-Control-Allow-Origin", "*")] /\
   lines_named "Access-Control-Allow-Headers" (after_request headers) =
     [("Access-Control-Allow-Headers", "Content-Type,Authorization,Accept")] /\
   lines_named "Access-Control-Allow-Methods" (after_request headers) =
     [("Access-Control-Allow-Methods", "GET,POST,OPTIONS")] /\
   lines_named "Access-Control-Allow-Credentials" (after_request headers) =
     [("Access-Control-Allow-Credentials", "true")]) /\
  (forall k,
     (lower k = "access-control-allow-origin" ->
      headers_get (after_request headers) k = Some "*") /\
     (lower k = "access-control-allow-headers" ->
      headers_get (after_request headers) k = Some "Content-Type,Authorization,Accept") /\
     (lower k = "access-control-allow-methods" ->
      headers_get (after_request headers) k = Some "GET,POST,OPTIONS") /\
     (lower k = "access-control-allow-credentials" ->
      headers_get (after_request headers) k = Some "true")).
Proof.
  pose proof (after_request_lines headers) as (H1 & H2 & H3 & H4).
  split; [now repeat split|].
  assert (forall name k, lower k = lower name ->
            headers_get (after_request headers) k =
            option_map snd (hd_error (lines_named name (after_request headers)))) as K.
  { intros name k Hk. rewrite headers_get_lines_named. unfold lines_named.
    do 2 f_equal. apply filter_ext. intros [k' v'].
    symmetry. now apply same_header_right. }
  intro k. repeat split; intro Hk.
  - rewrite (K "Access-Control-Allow-Origin" k Hk), H1. reflexivity.
  - rewrite (K "Access-Control-Allow-Headers" k Hk), H2. reflexivity.
  - rewrite (K "Access-Control-Allow-Methods" k Hk), H3. reflexivity.
  - rewrite (K "Access-Control-Allow-Credentials" k Hk), H4. reflexivity.
Qed.

(** X17: the other headers of the response stay, in their order. *)
Theorem after_request_keeps_other_headers (headers : Headers) :
  filter (fun kv => negb (is_cors_name (fst kv))) (after_request headers) =
  filter (fun kv => negb (is_cors_name (fst kv))) headers.
Proof.
  assert (forall name h value,
            is_cors_name name = true ->
            filter (fun kv => negb (is_cors_name (fst kv))) (headers_set h name value) =
            filter (fun kv => negb (is_cors_name (fst kv))) h) as K.
  { intros name h value Hn.
    apply (filter_set_dropped (fun k => negb (is_cors_name k))).
    intros k Hk. apply negb_false_iff.
    unfold is_cors_name in *. rewrite existsb_exists in *.
    destruct Hn as (x & Hx & Hs). exists x. split; [exact Hx|].
    now rewrite (same_header_trans k name x Hk). }
  unfold after_request. now rewrite !K by reflexivity.
Qed.

(** X18: [after_request] applied again changes nothing. *)
Theorem after_request_idempotent (headers : Headers) :
  after_request (after_request headers) = after_request headers.
Proof.
  pose proof (after_request_lines headers) as (H1 & H2 & H3 & H4).
  unfold after_request at 1.
  now rewrite (headers_set_fixed _ _ _ H1), (headers_set_fixed _ _ _ H2),
    (headers_set_fixed _ _ _ H3), (headers_set_fixed _ _ _ H4).
Qed.

End Server.

(** ** The properties on the sample requests, with the reference decoder *)

Lemma token_unsupported_content_type_witness :
  token Base64.b64decode_utf8 (plain_text_request (Some basic_dummy)) =
    unsupported_content_type_response.
Proof.
  apply (token_unsupported_content_type Base64.b64decode_utf8
           (plain_text_request (Some basic_dummy))).
  - vm_compute; reflexivity.
  - vm_compute; reflexivity.
  - vm_compute; reflexivity.
Defined.

Lemma token_unsupported_grant_type_witness :
  token Base64.b64decode_utf8 refresh_token_request = unsupported_grant_type_response.
Proof.
  apply (token_unsupported_grant_type Base64.b64decode_utf8 refresh_token_request
           [("grant_type", PyStr "refresh_token")]).
  - vm_compute; reflexivity.
  - vm_compute; reflexivity.
  - vm_compute; discriminate.
  - reflexivity.
Defined.

Lemma header_identity_ignores_body_witness :
  parse_client_credentials Base64.b64decode_utf8 (Some basic_dummy)
    unparseable_json_request =
  Returns (PyStr "dummy_client_12345", PyStr "dummy_secret_abcdef123456").
Proof.
  apply (header_identity_ignores_body Base64.b64decode_utf8 basic_dummy
           "dummy_client_12345" "dummy_secret_abcdef123456"
           unparseable_json_request).
  - vm_compute; reflexivity.
  - vm_compute; reflexivity.
  - vm_compute; reflexivity.
  - discriminate.
Defined.

Lemma authorize_validation_order_witness :
  authorize authorize_without_redirect_uri = missing_parameters_response.
Proof.
  apply (proj1 (authorize_validation_order authorize_without_redirect_uri)).
  right; vm_compute; reflexivity.
Defined.

Lemma authorize_redirect_target_witness :
  authorize (authorize_request [("state", "S-1")]) =
    RedirectResponse 302
      "http://localhost:3000/callback?code=dummy_auth_code_12345&state=S-1".
Proof.
  refine (proj2 (proj1 (authorize_redirect_target
                          (authorize_request [("state", "S-1")])
                          "X" "http://localhost:3000/callback"
                          _ _ _ _ _) "S-1" _ _) _).
  - vm_compute; reflexivity.
  - discriminate.
  - vm_compute; reflexivity.
  - discriminate.
  - vm_compute; reflexivity.
  - vm_compute; reflexivity.
  - discriminate.
  - vm_compute; reflexivity.
Defined.


(** *** Where the code differs *)

(** C2: a state with a space is not echoed verbatim. *)
Lemma authorize_state_not_verbatim :
  param (authorize_request [("state", "a b")]) "client_id" = Some "X" /\
  param (authorize_request [("state", "a b")]) "redirect_uri" =
    Some "http://localhost:3000/callback" /\
  param_default (authorize_request [("state", "a b")]) "response_type" "code" =
    Some "code" /\
  param (authorize_request [("state", "a b")]) "state" = Some "a b" /\
  authorize (authorize_request [("state", "a b")]) =
    RedirectResponse 302
      "http://localhost:3000/callback?code=dummy_auth_code_12345&state=a+b" /\
  authorize (authorize_request [("state", "a b")]) <>
    RedirectResponse 302
      ("http://localhost:3000/callback" ++ "?code=dummy_auth_code_12345" ++
       "&state=" ++ "a b").
Proof.
  repeat (split; [reflexivity|]). vm_compute. discriminate.
Qed.

(** C4: plain text without credentials is answered 401, not 400. *)
Lemma token_plain_text_without_credentials :
  str_in "application/x-www-form-urlencoded"
         (get_default (headers_Content_Type (plain_text_request None)) "") = false /\
  str_in "application/json"
         (get_default (headers_Content_Type (plain_text_request None)) "") = false /\
  token Base64.b64decode_utf8 (plain_text_request None) = invalid_credentials_response /\
  status_of (token Base64.b64decode_utf8 (plain_text_request None)) <> 400%Z.
Proof.
  repeat split; try (vm_compute; reflexivity). vm_compute. discriminate.
Qed.

(** C6: a JSON body that is a list has no [grant_type] and is answered 500. *)
Lemma token_json_list_body :
  parse_client_credentials Base64.b64decode_utf8
    (headers_Authorization json_list_token_request) json_list_token_request =
    Returns (PyStr DUMMY_CLIENT_ID, PyStr DUMMY_CLIENT_SECRET) /\
  token_request_data json_list_token_request = Some (PyList [PyInt 1]) /\
  token Base64.b64decode_utf8 json_list_token_request =
    JsonResponse 500
      (PyDict [("error", PyStr "server_error");
               ("error_description", PyStr "'list' object has no attribute 'get'")]) /\
  token Base64.b64decode_utf8 json_list_token_request <> unsupported_grant_type_response.
Proof.
  repeat split; try (vm_compute; reflexivity). vm_compute. discriminate.
Qed.

(** C8: a body that does not parse as JSON is answered 400. *)
Lemma register_unparseable_body :
  register 0 unparseable_json_request =
    JsonResponse 400
      (PyDict [("error", PyStr "invalid_request");
               ("error_description",
                PyStr "400 Bad Request: Failed to decode JSON object")]) /\
  status_of (register 0 unparseable_json_request) <> 200%Z.
Proof.
  split; [reflexivity|]. vm_compute. discriminate.
Qed.


(** ** The further properties on the sample requests *)

Lemma unusable_header_is_no_header_witness :
  parse_client_credentials Base64.b64decode_utf8 (Some "Bearer abc")
    form_credentials_request =
  parse_client_credentials Base64.b64decode_utf8 None form_credentials_request.
Proof.
  apply (unusable_header_is_no_header Base64.b64decode_utf8 "Bearer abc"
           form_credentials_request).
  right; left; vm_compute; reflexivity.
Defined.

Lemma token_issued_only_if_witness :
  parse_client_credentials Base64.b64decode_utf8
    (headers_Authorization form_token_request) form_token_request =
    Returns (PyStr DUMMY_CLIENT_ID, PyStr DUMMY_CLIENT_SECRET).
Proof.
  apply (token_issued_only_if Base64.b64decode_utf8 form_token_request).
  vm_compute; reflexivity.
Defined.

Lemma token_unreadable_json_is_empty_witness :
  token Base64.b64decode_utf8 json_null_token_request = unsupported_grant_type_response.
Proof.
  apply (token_unreadable_json_is_empty Base64.b64decode_utf8 json_null_token_request).
  - vm_compute; reflexivity.
  - vm_compute; reflexivity.
  - vm_compute; reflexivity.
  - intros body H. inversion H. reflexivity.
Defined.

Lemma token_accepts_form_credentials_witness :
  token Base64.b64decode_utf8 form_credentials_request = JsonResponse 200 token_response.
Proof.
  apply (token_accepts_form_credentials Base64.b64decode_utf8 form_credentials_request);
    vm_compute; reflexivity.
Defined.

Lemma token_accepts_json_credentials_witness :
  token Base64.b64decode_utf8 json_credentials_request = JsonResponse 200 token_response.
Proof.
  apply (token_accepts_json_credentials Base64.b64decode_utf8 json_credentials_request
           json_credentials);
    vm_compute; reflexivity.
Defined.

Lemma token_header_overrides_body_witness :
  token Base64.b64decode_utf8
    (with_authorization form_credentials_request (Some basic_other_client)) =
  invalid_credentials_response.
Proof.
  apply (token_header_overrides_body Base64.b64decode_utf8
           (with_authorization form_credentials_request (Some basic_other_client))
           basic_other_client "other" "dummy_secret_abcdef123456").
  - reflexivity.
  - vm_compute; reflexivity.
  - vm_compute; reflexivity.
  - vm_compute; reflexivity.
  - discriminate.
  - left; discriminate.
Defined.

Lemma registered_credentials_are_accepted_witness :
  token Base64.b64decode_utf8 form_token_request = JsonResponse 200 token_response.
Proof.
  apply (registered_credentials_are_accepted Base64.b64decode_utf8
           1700000000 json_null_token_request form_token_request PyNone
           [("grant_type", PyStr "authorization_code"); ("code", PyStr "anything");
            ("redirect_uri", PyStr "http://x")]
           basic_dummy "dummy_client_12345" "dummy_secret_abcdef123456");
    vm_compute; reflexivity.
Defined.

Lemma authorize_reads_four_parameters_witness :
  authorize (authorize_request [("state", "xyz"); ("scope", "admin");
                                ("code_challenge", "abc");
                                ("code_challenge_method", "S256")]) =
  authorize (authorize_request [("state", "xyz")]).
Proof.
  apply authorize_reads_four_parameters; vm_compute; reflexivity.
Defined.

Lemma authorize_state_is_escaped_witness :
  exists q,
    authorize (authorize_request [("state", "a&b=c")]) =
      RedirectResponse 302
        ("http://localhost:3000/callback" ++ "?code=dummy_auth_code_12345&state=" ++ q) /\
    Urllib.all_escaped q = true /\
    Urllib.occurs "&" q = false /\ Urllib.occurs "=" q = false /\
    Urllib.occurs "#" q = false /\ Urllib.occurs "?" q = false /\
    Urllib.occurs "/" q = false /\ Urllib.occurs " " q = false.
Proof.
  apply (authorize_state_is_escaped (authorize_request [("state", "a&b=c")])
           "X" "http://localhost:3000/callback" "a&b=c");
    first [discriminate | vm_compute; reflexivity].
Defined.

Lemma authorize_state_is_recoverable_witness : "a b" = "a b".
Proof.
  apply (authorize_state_is_recoverable
           (authorize_request [("state", "a b")])
           (authorize_request [("state", "a b"); ("scope", "admin")])
           "X" "X" "http://localhost:3000/callback" "a b" "a b");
    first [discriminate | vm_compute; reflexivity].
Defined.

Lemma after_request_sets_cors_witness :
  headers_get (after_request sample_headers) "ACCESS-CONTROL-ALLOW-ORIGIN" = Some "*".
Proof.
  apply (proj1 (proj2 (after_request_sets_cors sample_headers)
                  "ACCESS-CONTROL-ALLOW-ORIGIN")).
  vm_compute; reflexivity.
Defined.
